(** * InvenTree background tasks: a shallow embedding of [InvenTree/tasks.py]

    The definitions cover the hold-off tracker ([check_daily_holdoff],
    [record_task_attempt], [record_task_success]), the scheduler upsert
    ([schedule_task]), the dispatcher ([offload_task]), the task registry
    ([ScheduledTask], [TaskRegister], [scheduled_task]), and the two named
    jobs [check_for_updates] and [check_for_migrations].

    Python code runs in a monad [M] that threads a [World] (everything the
    module reads and writes: the settings store, the log, the Schedule table,
    the registry list, ...) and either returns a value or raises an exception.
    Collaborators that are not part of the file (the clock, the random
    generator, the ISO-8601 parser, the import system, the worker pool, the
    HTTP endpoint, the migration executor) are fields of an [Env] record. *)

From Stdlib Require Import ZArith Ascii String Lia Bool.
From stdpp Require Import gmap strings list fin_maps pretty.

Open Scope Z_scope.

(** ** Exceptions *)

Inductive exn : Type :=
| ValueError (msg : string)
| TypeError (msg : string)
| AttributeError (msg : string)
| NameError (msg : string)
| UnboundLocalError (msg : string)
| SyntaxError (msg : string)
| ImportError (msg : string)
| ModuleNotFoundError (msg : string)
| AppRegistryNotReady
| OperationalError (msg : string)
| ProgrammingError (msg : string)
| NotSupportedError (msg : string)
| OverflowError (msg : string)
| OtherError (cls msg : string).

(** [except ImportError] also catches its subclass [ModuleNotFoundError];
    [except NameError] also catches [UnboundLocalError]. *)
Definition is_ImportError (e : exn) : bool :=
  match e with ImportError _ | ModuleNotFoundError _ => true | _ => false end.

Definition is_ModuleNotFoundError (e : exn) : bool :=
  match e with ModuleNotFoundError _ => true | _ => false end.

Definition is_NameError (e : exn) : bool :=
  match e with NameError _ | UnboundLocalError _ => true | _ => false end.

Definition is_ValueError (e : exn) : bool :=
  match e with ValueError _ => true | _ => false end.

Definition is_NotSupportedError (e : exn) : bool :=
  match e with NotSupportedError _ => true | _ => false end.

Definition is_db_not_ready (e : exn) : bool :=
  match e with OperationalError _ | ProgrammingError _ => true | _ => false end.

Definition exn_str (e : exn) : string :=
  match e with
  | ValueError m | TypeError m | AttributeError m | NameError m
  | UnboundLocalError m | SyntaxError m | ImportError m
  | ModuleNotFoundError m | OperationalError m | ProgrammingError m
  | NotSupportedError m | OverflowError m | OtherError _ m => m
  | AppRegistryNotReady => EmptyString
  end.

(** ** Python values seen by the dispatcher and the registry *)

Inductive pyval : Type :=
| VNone
| VBool (b : bool)
| VInt (n : Z)
| VStr (s : string)
| VFunc (name : string)      (* a function or class: callable *)
| VObj (name : string).      (* any other object: truthy, not callable *)

Definition callable (v : pyval) : bool :=
  match v with VFunc _ => true | _ => false end.

Definition truthy (v : pyval) : bool :=
  match v with
  | VNone => false
  | VBool b => b
  | VInt n => negb (n =? 0)
  | VStr s => negb (bool_decide (s = EmptyString))
  | VFunc _ | VObj _ => true
  end.

(** Positional and keyword arguments of a call. *)
Record call_args : Type := CallArgs {
  positional : list pyval;
  keywords : list (string * pyval)
}.

(** ** The world *)

Inductive level : Type := DEBUG | INFO | WARNING | ERROR.

(** A row of the [django_q] Schedule table: column name to value. *)
Abbreviation sched_row := (gmap string pyval).

(** The dataclass [ScheduledTask]. *)
Record ScheduledTask : Type := MkScheduledTask {
  func : pyval;
  interval : pyval;
  minutes : pyval
}.

Record World : Type := MkWorld {
  settings : gmap string string;          (* InvenTreeSetting rows *)
  log : list (level * string);            (* logger "inventree" *)
  warned : list string;                   (* warnings.warn *)
  clock_reads : nat;                      (* datetime.now() calls so far *)
  sleeps : list Z;                        (* time.sleep calls *)
  invocations : list (string * call_args);(* functions called inline *)
  queue : list (pyval * call_args);       (* tasks handed to the worker pool *)
  schedules : list sched_row;             (* Schedule.objects *)
  heap : gmap nat (list ScheduledTask);   (* list objects, by address *)
  maintenance : bool;                     (* maintenance-mode flag *)
  printed : list string;                  (* print *)
  plugin_reloads : nat                    (* registry.reload_plugins calls *)
}.

Definition with_settings (f : gmap string string -> gmap string string) (w : World) : World :=
  MkWorld (f (settings w)) (log w) (warned w) (clock_reads w) (sleeps w)
          (invocations w) (queue w) (schedules w) (heap w) (maintenance w)
          (printed w) (plugin_reloads w).

Definition with_log (f : list (level * string) -> list (level * string)) (w : World) : World :=
  MkWorld (settings w) (f (log w)) (warned w) (clock_reads w) (sleeps w)
          (invocations w) (queue w) (schedules w) (heap w) (maintenance w)
          (printed w) (plugin_reloads w).

Definition with_warned (f : list string -> list string) (w : World) : World :=
  MkWorld (settings w) (log w) (f (warned w)) (clock_reads w) (sleeps w)
          (invocations w) (queue w) (schedules w) (heap w) (maintenance w)
          (printed w) (plugin_reloads w).

Definition with_clock_reads (f : nat -> nat) (w : World) : World :=
  MkWorld (settings w) (log w) (warned w) (f (clock_reads w)) (sleeps w)
          (invocations w) (queue w) (schedules w) (heap w) (maintenance w)
          (printed w) (plugin_reloads w).

Definition with_sleeps (f : list Z -> list Z) (w : World) : World :=
  MkWorld (settings w) (log w) (warned w) (clock_reads w) (f (sleeps w))
          (invocations w) (queue w) (schedules w) (heap w) (maintenance w)
          (printed w) (plugin_reloads w).

Definition with_invocations
    (f : list (string * call_args) -> list (string * call_args)) (w : World) : World :=
  MkWorld (settings w) (log w) (warned w) (clock_reads w) (sleeps w)
          (f (invocations w)) (queue w) (schedules w) (heap w) (maintenance w)
          (printed w) (plugin_reloads w).

Definition with_queue
    (f : list (pyval * call_args) -> list (pyval * call_args)) (w : World) : World :=
  MkWorld (settings w) (log w) (warned w) (clock_reads w) (sleeps w)
          (invocations w) (f (queue w)) (schedules w) (heap w) (maintenance w)
          (printed w) (plugin_reloads w).

Definition with_schedules (f : list sched_row -> list sched_row) (w : World) : World :=
  MkWorld (settings w) (log w) (warned w) (clock_reads w) (sleeps w)
          (invocations w) (queue w) (f (schedules w)) (heap w) (maintenance w)
          (printed w) (plugin_reloads w).

Definition with_heap
    (f : gmap nat (list ScheduledTask) -> gmap nat (list ScheduledTask)) (w : World) : World :=
  MkWorld (settings w) (log w) (warned w) (clock_reads w) (sleeps w)
          (invocations w) (queue w) (schedules w) (f (heap w)) (maintenance w)
          (printed w) (plugin_reloads w).

Definition with_maintenance (b : bool) (w : World) : World :=
  MkWorld (settings w) (log w) (warned w) (clock_reads w) (sleeps w)
          (invocations w) (queue w) (schedules w) (heap w) b
          (printed w) (plugin_reloads w).

Definition with_printed (f : list string -> list string) (w : World) : World :=
  MkWorld (settings w) (log w) (warned w) (clock_reads w) (sleeps w)
          (invocations w) (queue w) (schedules w) (heap w) (maintenance w)
          (f (printed w)) (plugin_reloads w).

Definition with_plugin_reloads (f : nat -> nat) (w : World) : World :=
  MkWorld (settings w) (log w) (warned w) (clock_reads w) (sleeps w)
          (invocations w) (queue w) (schedules w) (heap w) (maintenance w)
          (printed w) (f (plugin_reloads w)).

(** ** The monad: a world in, a value or an exception and a world out *)

Inductive outcome (A : Type) : Type :=
| Ret (a : A)
| Raise (e : exn).
Arguments Ret {A} a.
Arguments Raise {A} e.

Definition M (A : Type) : Type := World -> outcome A * World.

#[global] Instance M_ret : MRet M := fun A a w => (Ret a, w).

#[global] Instance M_bind : MBind M := fun A B k m w =>
  match m w with
  | (Ret a, w') => k a w'
  | (Raise e, w') => (Raise e, w')
  end.

Definition raise {A : Type} (e : exn) : M A := fun w => (Raise e, w).

(** [try: m except P: h] *)
Definition try_except {A : Type} (m : M A) (catches : exn -> bool) (h : exn -> M A) : M A :=
  fun w =>
    match m w with
    | (Raise e, w') => if catches e then h e w' else (Raise e, w')
    | r => r
    end.

Definition modify (f : World -> World) : M unit := fun w => (Ret tt, f w).
Definition gets {A : Type} (f : World -> A) : M A := fun w => (Ret (f w), w).

Definition logger (lv : level) (msg : string) : M unit :=
  modify (with_log (fun l => l ++ [(lv, msg)])).

(** ** Collaborators *)

(** What the three imports at the top of [offload_task] did. When the
    database is not ready the warning is raised and the function carries on
    with [is_worker_running] unbound; [AsyncTask] is bound when it was the
    last import that failed. *)
Inductive import_state : Type :=
| ImportsOk
| ImportsRegistryNotReady
| ImportsDbNotReady (e : exn) (async_task_bound : bool).

(** The reply of the GitHub releases endpoint, after [json.loads]: the body
    is not JSON, or it is an object whose [tag_name] entry is absent or a
    string. *)
Inductive json_body : Type :=
| JsonInvalid
| JsonObject (tag_name : option string).

Record http_response : Type := MkResponse {
  status_code : Z;
  body : json_body
}.

(** A [datetime] value. [datetime.now()] returns a naive one: local wall
    time, here the number of microseconds since 1970-01-01T00:00:00. A text
    that carries a UTC offset parses to an aware one, which Python refuses to
    compare with a naive one. *)
Inductive pydatetime : Type :=
| Naive (t : Z)
| Aware (t : Z) (utcoffset : Z).

Record Env : Type := MkEnv {
  (* time and chance *)
  clock : nat -> Z;                   (* the k-th reading of datetime.now() *)
  randint : Z -> Z -> Z;              (* random.randint *)
  fromisoformat : string -> option pydatetime;  (* datetime.fromisoformat; None = ValueError *)
  (* django settings and configuration *)
  TESTING : bool;
  DATABASE_ENGINE : string;           (* settings.DATABASES['default']['ENGINE'] *)
  AUTO_UPDATE : bool;                 (* get_setting('INVENTREE_AUTO_UPDATE', ...) *)
  UPDATE_CHECK_INTERVAL : Z;          (* int(INVENTREE_UPDATE_CHECK_INTERVAL) *)
  (* application registry and database *)
  apps_ready : bool;                  (* false: model imports raise AppRegistryNotReady *)
  db_error : option exn;              (* raised by queries on Schedule.objects *)
  store_refuses : gmap string pyval -> option exn;
                                      (* columns and values the Schedule table refuses *)
  (* dispatcher *)
  offload_imports : import_state;
  is_worker_running : bool;
  import_module : string -> outcome (gmap string pyval);
  builtins : string -> option pyval;         (* builtins and module dunders *)
  eval_expr : list (string * pyval) -> string -> M pyval;
                                             (* eval of anything but a bare name *)
  call_raises : string -> call_args -> option exn;  (* what a called function raises *)
  async_run : pyval -> call_args -> option exn;     (* what AsyncTask(...).run() raises *)
  (* named jobs *)
  github_response : http_response;
  migration_plan : list string;
  migrate_raises : option exn               (* call_command('migrate') *)
}.

(** ** Dates and times

    A [timedelta] is a number of microseconds. Python's [datetime] covers
    the years 1 to 9999 and its [timedelta] at most 999999999 days either
    way: arithmetic that leaves these ranges raises [OverflowError]. *)

Definition US_PER_SECOND : Z := 1000000.
Definition US_PER_HOUR : Z := 3600 * US_PER_SECOND.
Definition US_PER_DAY : Z := 24 * US_PER_HOUR.

Definition timedelta_days (n : Z) : Z := n * US_PER_DAY.
Definition timedelta_hours (n : Z) : Z := n * US_PER_HOUR.

(** [datetime.min] is 0001-01-01T00:00:00 and [datetime.max] is
    9999-12-31T23:59:59.999999. *)
Definition MIN_DATETIME : Z := -62135596800000000.
Definition MAX_DATETIME : Z := 253402300799999999.
Definition MAX_TIMEDELTA_DAYS : Z := 999999999.

(** [timedelta(days=n)] *)
Definition new_timedelta_days (n : Z) : M Z :=
  if Z.abs n <=? MAX_TIMEDELTA_DAYS then mret (timedelta_days n)
  else raise (OverflowError ("days=" +:+ pretty n +:+ "; must have magnitude <= 999999999")).

(** [t - delta] on a naive datetime *)
Definition datetime_sub (t delta : Z) : M Z :=
  let r := t - delta in
  if (MIN_DATETIME <=? r) && (r <=? MAX_DATETIME) then mret r
  else raise (OverflowError "date value out of range").

(** [a > b] where [b] is naive *)
Definition datetime_gt (a : pydatetime) (b : Z) : M bool :=
  match a with
  | Naive t => mret (t >? b)
  | Aware _ _ => raise (TypeError "can't compare offset-naive and offset-aware datetimes")
  end.

(** Days since 1970-01-01 to (year, month, day), proleptic Gregorian. *)
Definition civil_from_days (z : Z) : Z * Z * Z :=
  let z := z + 719468 in
  let era := z / 146097 in
  let doe := z - era * 146097 in
  let yoe := (doe - doe / 1460 + doe / 36524 - doe / 146096) / 365 in
  let y := yoe + era * 400 in
  let doy := doe - (365 * yoe + yoe / 4 - yoe / 100) in
  let mp := (5 * doy + 2) / 153 in
  let d := doy - (153 * mp + 2) / 5 + 1 in
  let m := if mp <? 10 then mp + 3 else mp - 9 in
  (if m <=? 2 then y + 1 else y, m, d).

Definition days_from_civil (y m d : Z) : Z :=
  let y := if m <=? 2 then y - 1 else y in
  let era := y / 400 in
  let yoe := y - era * 400 in
  let doy := (153 * (if 2 <? m then m - 3 else m + 9) + 2) / 5 + d - 1 in
  let doe := yoe * 365 + yoe / 4 - yoe / 100 + doy in
  era * 146097 + doe - 719468.

Definition digit_char (d : Z) : ascii := ascii_of_nat (48 + Z.to_nat d).

Fixpoint pad_digits (width : nat) (n : Z) (acc : string) : string :=
  match width with
  | O => acc
  | S width' => pad_digits width' (n / 10) (String (digit_char (n mod 10)) acc)
  end.

(** [datetime.isoformat()] of a naive datetime:
    [YYYY-MM-DDTHH:MM:SS], followed by [.ffffff] when the microsecond is not 0. *)
Definition isoformat (t : Z) : string :=
  let '(y, m, d) := civil_from_days (t / US_PER_DAY) in
  let r := t mod US_PER_DAY in
  let hh := r / US_PER_HOUR in
  let mm := (r mod US_PER_HOUR) / (60 * US_PER_SECOND) in
  let ss := (r mod (60 * US_PER_SECOND)) / US_PER_SECOND in
  let us := r mod US_PER_SECOND in
  pad_digits 4 y "" +:+ "-" +:+ pad_digits 2 m "" +:+ "-" +:+ pad_digits 2 d ""
    +:+ "T" +:+ pad_digits 2 hh "" +:+ ":" +:+ pad_digits 2 mm "" +:+ ":"
    +:+ pad_digits 2 ss ""
    +:+ (if us =? 0 then "" else "." +:+ pad_digits 6 us "").

Definition datetime_now (env : Env) : M Z :=
  fun w => (Ret (clock env (clock_reads w)), with_clock_reads S w).

Definition random_randint (env : Env) (a b : Z) : M Z := mret (randint env a b).

Definition time_sleep (secs : Z) : M unit :=
  modify (with_sleeps (fun l => l ++ [secs])).

(** ** The settings store, [common.models.InvenTreeSetting] *)

Definition InvenTreeSetting_get_setting (key backup : string) : M string :=
  gets (fun w => default backup (settings w !! key)).

Definition InvenTreeSetting_set_setting (key value : string) : M unit :=
  modify (with_settings (<[key := value]>)).

(** ** [raise_warning] *)

Definition raise_warning (env : Env) (msg : string) : M unit :=
  logger WARNING msg;;
  if TESTING env then modify (with_warned (fun l => l ++ [msg])) else mret tt.

(** ** The hold-off tracker *)

Definition attempt_key (task_name : string) : string := "_" +:+ task_name +:+ "_ATTEMPT".
Definition success_key (task_name : string) : string := "_" +:+ task_name +:+ "_SUCCESS".

(** The two recorders begin with the same import of [common.models] as
    their callers in this file ([check_daily_holdoff], [check_for_updates],
    [run_backup]), which have completed it by the time they call: the module
    is then found in [sys.modules] and the statement raises nothing. *)
Definition record_task_attempt (env : Env) (task_name : string) : M unit :=
  logger INFO ("Logging task attempt for '" +:+ task_name +:+ "'");;
  now ← datetime_now env;
  InvenTreeSetting_set_setting (attempt_key task_name) (isoformat now).

Definition record_task_success (env : Env) (task_name : string) : M unit :=
  now ← datetime_now env;
  InvenTreeSetting_set_setting (success_key task_name) (isoformat now).

(** A stored value after the two [if] statements that follow its read: the
    empty string is falsy and stays so; a string that does not parse becomes
    [None]. *)
Definition parse_stored (env : Env) (s : string) : option pydatetime :=
  if bool_decide (s = "") then None else fromisoformat env s.

(** Lines 122-143: the attempt guard and the recording of the attempt. *)
Definition check_attempt (env : Env) (task_name : string) : M bool :=
  last_attempt ← InvenTreeSetting_get_setting (attempt_key task_name) "";
  let record :=
    record_task_attempt env task_name;;
    mret true in
  match parse_stored env last_attempt with
  | Some last_attempt =>
      (* Do not attempt if the most recent *attempt* was within 12 hours *)
      now ← datetime_now env;
      threshold ← datetime_sub now (timedelta_hours 12);
      recent ← datetime_gt last_attempt threshold;
      if recent : bool then
        logger INFO ("Last attempt for '" +:+ task_name +:+ "' was too recent - skipping task");;
        mret false
      else record
  | None => record
  end.

(** Line 94 imports [common.models] with no guard: before the application
    registry is ready the import raises [AppRegistryNotReady], which leaves
    the function. *)
Definition check_daily_holdoff (env : Env) (task_name : string) (n_days : Z) : M bool :=
  if negb (apps_ready env) then raise AppRegistryNotReady
  else if n_days <=? 0 then
    logger INFO ("Specified interval for task '" +:+ task_name +:+ "' < 1 - task will not run");;
    mret false
  else
    (* Sleep a random number of seconds to prevent worker conflict *)
    secs ← random_randint env 1 5;
    time_sleep secs;;
    (* Check for recent success information *)
    last_success ← InvenTreeSetting_get_setting (success_key task_name) "";
    match parse_stored env last_success with
    | Some last_success =>
        now ← datetime_now env;
        delta ← new_timedelta_days n_days;
        threshold ← datetime_sub now delta;
        recent ← datetime_gt last_success threshold;
        if recent : bool then
          logger INFO ("Last successful run for '" +:+ task_name +:+ "' was too recent - skipping task");;
          mret false
        else check_attempt env task_name
    | None => check_attempt env task_name
    end.

(** *** A parser for the timestamps the tracker writes

    [datetime.fromisoformat] is a field of [Env]. [fromisoformat_written] is
    the instance used in the examples: it reads back the strings [isoformat]
    writes, [YYYY-MM-DDTHH:MM:SS] with an optional [.ffffff], followed for an
    aware datetime by the offset [+HH:MM] or [-HH:MM]; it rejects every
    other string. *)

Definition digit_val (a : ascii) : option Z :=
  let n := Z.of_nat (nat_of_ascii a) in
  if (48 <=? n) && (n <=? 57) then Some (n - 48) else None.

Fixpoint read_digits (count : nat) (acc : Z) (s : string) : option (Z * string) :=
  match count with
  | O => Some (acc, s)
  | S count' =>
      match s with
      | String a s' => d ← digit_val a; read_digits count' (10 * acc + d) s'
      | EmptyString => None
      end
  end.

Definition expect (c : ascii) (s : string) : option string :=
  match s with
  | String a s' => if bool_decide (a = c) then Some s' else None
  | EmptyString => None
  end.

Definition is_leap (y : Z) : bool :=
  (y mod 4 =? 0) && (negb (y mod 100 =? 0) || (y mod 400 =? 0)).

Definition days_in_month (y m : Z) : Z :=
  if m =? 2 then (if is_leap y then 29 else 28)
  else if (m =? 4) || (m =? 6) || (m =? 9) || (m =? 11) then 30
  else 31.

(** The UTC offset at the end of the text, in microseconds; [None] when
    the text ends without one. *)
Definition read_offset (s : string) : option (option Z * string) :=
  match s with
  | String a s' =>
      if bool_decide (a = "+"%char) || bool_decide (a = "-"%char) then
        '(hh, s') ← read_digits 2 0 s';
        s' ← expect ":" s';
        '(mm, s') ← read_digits 2 0 s';
        if (hh <? 24) && (mm <? 60) then
          let off := hh * US_PER_HOUR + mm * (60 * US_PER_SECOND) in
          Some (Some (if bool_decide (a = "-"%char) then - off else off), s')
        else None
      else Some (None, s)
  | EmptyString => Some (None, s)
  end.

Definition fromisoformat_written (s : string) : option pydatetime :=
  '(y, s) ← read_digits 4 0 s;
  s ← expect "-" s;
  '(m, s) ← read_digits 2 0 s;
  s ← expect "-" s;
  '(d, s) ← read_digits 2 0 s;
  s ← expect "T" s;
  '(hh, s) ← read_digits 2 0 s;
  s ← expect ":" s;
  '(mm, s) ← read_digits 2 0 s;
  s ← expect ":" s;
  '(ss, s) ← read_digits 2 0 s;
  '(us, s) ← match s with
             | String "."%char s' => read_digits 6 0 s'
             | _ => Some (0, s)
             end;
  '(offset, s) ← read_offset s;
  if bool_decide (s = "") && (1 <=? y) && (1 <=? m) && (m <=? 12) && (1 <=? d)
     && (d <=? days_in_month y m) && (hh <? 24) && (mm <? 60) && (ss <? 60)
  then
    let t := days_from_civil y m d * US_PER_DAY + hh * US_PER_HOUR
             + mm * (60 * US_PER_SECOND) + ss * US_PER_SECOND + us in
    Some (match offset with
          | Some off => Aware t off
          | None => Naive t
          end)
  else None.

(** ** Scheduler integration: [schedule_task] *)

#[global] Instance pyval_eq_dec : EqDecision pyval.
Proof. solve_decision. Defined.

(** [Schedule.objects.filter(func=taskname)] selects the rows whose [func]
    column is [taskname]. *)
Definition has_func (taskname : string) (row : sched_row) : bool :=
  bool_decide (row !! "func" = Some (VStr taskname)).

(** Every query on the table raises when the database is not ready. *)
Definition db_query {A : Type} (env : Env) (m : M A) : M A :=
  match db_error env with
  | Some e => raise e
  | None => m
  end.

Definition Schedule_filter_exists (env : Env) (taskname : string) : M bool :=
  db_query env (gets (fun w => existsb (has_func taskname) (schedules w))).

(** The table does not take every column and value: a keyword that is not
    a column of the model is refused ([TypeError] from the constructor,
    [FieldDoesNotExist] from [update]), and so is an integer that does not
    fit its column ([OverflowError]). The model [django_q.models.Schedule]
    is not part of the file: what it refuses is [store_refuses], applied to
    the columns a statement writes; a refused statement changes no row. *)
Definition store_check (env : Env) (columns : gmap string pyval) : M unit :=
  match store_refuses env columns with
  | Some e => raise e
  | None => mret tt
  end.

(** [.update] with the keyword arguments writes the given columns of every selected row. *)
Definition update_row (taskname : string) (kwargs : gmap string pyval) (row : sched_row)
    : sched_row :=
  if has_func taskname row then kwargs ∪ row else row.

Definition Schedule_filter_update (env : Env) (taskname : string) (kwargs : gmap string pyval)
    : M unit :=
  store_check env kwargs;;
  db_query env (modify (with_schedules (map (update_row taskname kwargs)))).

(** [Schedule.objects.create(name=taskname, func=taskname, **kwargs)]: a
    keyword given twice is a [TypeError] of the call itself; otherwise a row
    is added, if the table takes it. Columns that are not passed take the
    model's defaults, which are not represented. *)
Definition Schedule_create (env : Env) (taskname : string) (kwargs : gmap string pyval)
    : M unit :=
  match kwargs !! "name", kwargs !! "func" with
  | None, None =>
      let row := <["name" := VStr taskname]> (<["func" := VStr taskname]> kwargs) in
      store_check env row;;
      db_query env (modify (with_schedules (fun rows => rows ++ [row])))
  | _, _ => raise (TypeError "got multiple values for keyword argument")
  end.

Definition schedule_task (env : Env) (taskname : string) (kwargs : gmap string pyval) : M unit :=
  (* If unspecified, repeat indefinitely *)
  let repeats := default (VInt (-1)) (kwargs !! "repeats") in
  let kwargs := <["repeats" := repeats]> kwargs in
  if negb (apps_ready env) then
    logger INFO "Could not start background tasks - App registry not ready"
  else
    try_except (A := unit)
      (found ← Schedule_filter_exists env taskname;
       if found : bool then
         logger DEBUG ("Scheduled task '" +:+ taskname +:+ "' already exists - updating!");;
         Schedule_filter_update env taskname kwargs
       else
         logger INFO ("Creating scheduled task '" +:+ taskname +:+ "'");;
         Schedule_create env taskname kwargs)
      is_db_not_ready
      (fun _ => mret tt).

(** ** The dispatcher: [offload_task] *)

(** [str.split(sep)] with a one-character separator. *)
Fixpoint split_on (sep : ascii) (s : string) : list string :=
  match s with
  | EmptyString => [EmptyString]
  | String a s' =>
      if bool_decide (a = sep) then EmptyString :: split_on sep s'
      else match split_on sep s' with
           | h :: t => String a h :: t
           | [] => [String a EmptyString]
           end
  end.

(** [str(v)] as it appears in the f-strings; the address of a function
    object is left out. *)
Definition py_str (v : pyval) : string :=
  match v with
  | VNone => "None"
  | VBool true => "True"
  | VBool false => "False"
  | VInt n => pretty n
  | VStr s => s
  | VFunc name => "<function " +:+ name +:+ ">"
  | VObj name => "<" +:+ name +:+ " object>"
  end.

(** [type(v).__name__], as it appears in the messages of the interpreter. *)
Definition py_type_name (v : pyval) : string :=
  match v with
  | VNone => "NoneType"
  | VBool _ => "bool"
  | VInt _ => "int"
  | VStr _ => "str"
  | VFunc _ => "function"
  | VObj name => name
  end.

(** Calling a value: a callable is invoked with the arguments (and may
    raise); anything else is a [TypeError]. *)
Definition py_call (env : Env) (f : pyval) (args : call_args) : M unit :=
  match f with
  | VFunc name =>
      modify (with_invocations (fun l => l ++ [(name, args)]));;
      match call_raises env name args with
      | Some e => raise e
      | None => mret tt
      end
  | _ => raise (TypeError ("'" +:+ py_type_name f +:+ "' object is not callable"))
  end.

(** The names bound at the top level of [InvenTree/tasks.py]. *)
Definition tasks_fn (name : string) : string * pyval :=
  (name, VFunc ("InvenTree.tasks." +:+ name)).

Definition module_globals : list (string * pyval) :=
  [ ("json", VObj "module"); ("logging", VObj "module"); ("os", VObj "module");
    ("random", VObj "module"); ("re", VObj "module"); ("time", VObj "module");
    ("warnings", VObj "module"); ("dataclass", VFunc "dataclasses.dataclass");
    ("datetime", VFunc "datetime.datetime"); ("timedelta", VFunc "datetime.timedelta");
    ("Callable", VObj "typing.Callable"); ("List", VObj "typing.List");
    ("settings", VObj "LazySettings"); ("django_mail", VObj "module");
    ("AppRegistryNotReady", VFunc "django.core.exceptions.AppRegistryNotReady");
    ("call_command", VFunc "django.core.management.call_command");
    ("DEFAULT_DB_ALIAS", VStr "default"); ("connections", VObj "ConnectionHandler");
    ("MigrationExecutor", VFunc "django.db.migrations.executor.MigrationExecutor");
    ("NotSupportedError", VFunc "django.db.utils.NotSupportedError");
    ("OperationalError", VFunc "django.db.utils.OperationalError");
    ("ProgrammingError", VFunc "django.db.utils.ProgrammingError");
    ("timezone", VObj "module"); ("requests", VObj "module");
    ("get_maintenance_mode", VFunc "maintenance_mode.core.get_maintenance_mode");
    ("maintenance_mode_on", VFunc "maintenance_mode.core.maintenance_mode_on");
    ("set_maintenance_mode", VFunc "maintenance_mode.core.set_maintenance_mode");
    ("get_setting", VFunc "InvenTree.config.get_setting");
    ("logger", VObj "Logger");
    tasks_fn "schedule_task"; tasks_fn "raise_warning"; tasks_fn "check_daily_holdoff";
    tasks_fn "record_task_attempt"; tasks_fn "record_task_success";
    tasks_fn "offload_task"; tasks_fn "ScheduledTask"; tasks_fn "TaskRegister";
    ("tasks", VObj "TaskRegister");
    tasks_fn "scheduled_task"; tasks_fn "heartbeat"; tasks_fn "delete_successful_tasks";
    tasks_fn "delete_failed_tasks"; tasks_fn "delete_old_error_logs";
    tasks_fn "delete_old_notifications"; tasks_fn "check_for_updates";
    tasks_fn "update_exchange_rates"; tasks_fn "run_backup"; tasks_fn "send_email";
    tasks_fn "check_for_migrations"; tasks_fn "get_migration_plan" ].

Fixpoint assoc (name : string) (l : list (string * pyval)) : option pyval :=
  match l with
  | [] => None
  | (k, v) :: l' => if bool_decide (k = name) then Some v else assoc name l'
  end.

(** A bare name: an ASCII identifier that is not a keyword. *)
Definition is_ident_start (a : ascii) : bool :=
  let n := nat_of_ascii a in
  ((65 <=? n) && (n <=? 90) || (97 <=? n) && (n <=? 122) || (n =? 95))%nat.

Definition is_ident_char (a : ascii) : bool :=
  let n := nat_of_ascii a in
  (is_ident_start a || (48 <=? n) && (n <=? 57))%nat.

Fixpoint all_chars (p : ascii -> bool) (s : string) : bool :=
  match s with
  | EmptyString => true
  | String a s' => p a && all_chars p s'
  end.

Definition python_keywords : list string :=
  [ "False"; "None"; "True"; "and"; "as"; "assert"; "async"; "await"; "break";
    "class"; "continue"; "def"; "del"; "elif"; "else"; "except"; "finally";
    "for"; "from"; "global"; "if"; "import"; "in"; "is"; "lambda"; "nonlocal";
    "not"; "or"; "pass"; "raise"; "return"; "try"; "while"; "with"; "yield" ].

Definition is_name (s : string) : bool :=
  match s with
  | EmptyString => false
  | String a s' =>
      is_ident_start a && all_chars is_ident_char s'
      && negb (bool_decide (s ∈ python_keywords))
  end.

(** Where [eval] inside a function finds a bare name: in the locals of
    the calling frame, then in the module globals, then in the builtins. *)
Definition scope_lookup (env : Env) (locals : list (string * pyval)) (name : string)
    : option pyval :=
  match assoc name locals with
  | Some v => Some v
  | None =>
      match assoc name module_globals with
      | Some v => Some v
      | None => builtins env name
      end
  end.

(** [eval(src)] inside a function: a bare name is looked up, which has no
    effect, and a name bound nowhere is a [NameError]. Any other source text
    is an expression that may call functions and change the world before it
    returns or raises: it is left to the environment. *)
Definition py_eval (env : Env) (locals : list (string * pyval)) (src : string) : M pyval :=
  if is_name src then
    match scope_lookup env locals src with
    | Some v => mret v
    | None => raise (NameError ("name '" +:+ src +:+ "' is not defined"))
    end
  else eval_expr env locals src.

(** The local variables of [offload_task] that are bound when line 219 runs. *)
Definition offload_locals (taskname : pyval) (force_async force_sync : bool)
    (app mod_ func_ app_mod : string) (_func : pyval) : list (string * pyval) :=
  [ ("taskname", taskname); ("args", VObj "tuple"); ("force_async", VBool force_async);
    ("force_sync", VBool force_sync); ("kwargs", VObj "dict");
    ("importlib", VObj "module"); ("AsyncTask", VFunc "django_q.tasks.AsyncTask");
    ("is_worker_running", VFunc "InvenTree.status.is_worker_running");
    ("app", VStr app); ("mod", VStr mod_); ("func", VStr func_);
    ("app_mod", VStr app_mod); ("_mod", VObj "module"); ("_func", _func) ].

(** [AsyncTask(taskname, *args, **kwargs).run()]: the task goes on the
    worker queue, or the call raises. *)
Definition AsyncTask_run (env : Env) (taskname : pyval) (args : call_args) : M unit :=
  match async_run env taskname args with
  | Some e => raise e
  | None => modify (with_queue (fun q => q ++ [(taskname, args)]))
  end.

(** Lines 183-188. *)
Definition offload_async (env : Env) (taskname : pyval) (args : call_args) : M unit :=
  try_except
    (match offload_imports env with
     | ImportsDbNotReady _ false =>
         raise (UnboundLocalError "local variable 'AsyncTask' referenced before assignment")
     | _ => AsyncTask_run env taskname args
     end)
    is_ImportError
    (fun _ => raise_warning env
       ("WARNING: '" +:+ py_str taskname +:+ "' not started - Function not found")).

(** Lines 191-225. *)
Definition offload_sync (env : Env) (taskname : pyval) (args : call_args)
    (force_async force_sync : bool) : M unit :=
  if callable taskname then
    (* function was passed - use that *)
    py_call env taskname args
  else
    match taskname with
    | VStr path =>
        match split_on "." path with
        | [app; mod_; func_] =>
            let app_mod := app +:+ "." +:+ mod_ in
            match import_module env app_mod with
            | Raise e =>
                if is_ModuleNotFoundError e then
                  raise_warning env ("WARNING: '" +:+ path +:+ "' not started - No module named '"
                                     +:+ app_mod +:+ "'")
                else raise e
            | Ret _mod =>
                (* getattr; an AttributeError leaves None *)
                let _func := default VNone (_mod !! func_) in
                r ← try_except
                      (if negb (truthy _func) then
                         v ← py_eval env
                               (offload_locals taskname force_async force_sync
                                               app mod_ func_ app_mod _func) func_;
                         mret (Some v)
                       else mret (Some _func))
                      is_NameError
                      (fun _ =>
                         raise_warning env ("WARNING: '" +:+ path
                                            +:+ "' not started - No function named '"
                                            +:+ func_ +:+ "'");;
                         mret None);
                match r with
                | Some _func => py_call env _func args
                | None => mret tt
                end
            end
        | _ =>
            raise_warning env ("WARNING: '" +:+ path +:+ "' not started - Malformed function path")
        end
    | _ => raise (AttributeError ("'" +:+ py_type_name taskname
                                  +:+ "' object has no attribute 'split'"))
    end.

Definition offload_task (env : Env) (taskname : pyval) (args : call_args)
    (force_async force_sync : bool) : M unit :=
  match offload_imports env with
  | ImportsRegistryNotReady =>
      logger WARNING ("Could not offload task '" +:+ py_str taskname
                      +:+ "' - app registry not ready")
  | imports =>
      match imports with
      | ImportsDbNotReady _ _ =>
          raise_warning env ("Could not offload task '" +:+ py_str taskname
                             +:+ "' - database not ready")
      | _ => mret tt
      end;;
      go_async ← (if force_async then mret true
                  else match imports with
                       | ImportsOk => mret (is_worker_running env && negb force_sync)
                       | _ => raise (UnboundLocalError
                                "local variable 'is_worker_running' referenced before assignment")
                       end);
      if go_async : bool then offload_async env taskname args
      else offload_sync env taskname args force_async force_sync
  end.

(** ** The task registry: [ScheduledTask], [TaskRegister], [scheduled_task] *)

Definition MINUTES : pyval := VStr "I".
Definition HOURLY : pyval := VStr "H".
Definition DAILY : pyval := VStr "D".
Definition WEEKLY : pyval := VStr "W".
Definition MONTHLY : pyval := VStr "M".
Definition QUARTERLY : pyval := VStr "Q".
Definition YEARLY : pyval := VStr "Y".
Definition TYPE : list pyval := [MINUTES; HOURLY; DAILY; WEEKLY; MONTHLY; QUARTERLY; YEARLY].

(** The class body [task_list: List[ScheduledTask] = []] runs once, when the
    module is imported: the class attribute holds the address of that one
    list object. Lists live in the [heap] of the world; an address that was
    never written holds the empty list. *)
Definition TaskRegister_task_list : nat := 0%nat.

(** An instance is an identity and an attribute dictionary; the only
    attribute the code reads is [task_list]. The class defines no
    [__init__], so a new instance has no attribute of its own. *)
Record TaskRegister : Type := MkTaskRegister {
  obj_id : nat;
  own_task_list : option nat
}.

(** [TaskRegister()], yielding the object with the given identity. *)
Definition TaskRegister_new (id : nat) : TaskRegister := MkTaskRegister id None.

(** [self.task_list]: the instance dictionary first, then the class. *)
Definition task_list_addr (self : TaskRegister) : nat :=
  default TaskRegister_task_list (own_task_list self).

Definition read_list (w : World) (addr : nat) : list ScheduledTask :=
  default [] (heap w !! addr).

Definition list_append (addr : nat) (x : ScheduledTask) : M unit :=
  modify (fun w => with_heap (<[addr := read_list w addr ++ [x]]>) w).

Definition register (self : TaskRegister) (task schedule minutes_ : pyval) : M unit :=
  list_append (task_list_addr self) (MkScheduledTask task schedule minutes_).

(** The module-level [tasks = TaskRegister()]. *)
Definition tasks : TaskRegister := TaskRegister_new 0.

(** [scheduled_task(interval, minutes, tasklist)(admin_class)]. An instance
    of [TaskRegister] is always truthy, so [tasklist if tasklist else tasks]
    is [tasks] exactly when [tasklist] is [None]. *)
Definition scheduled_task (interval_ minutes_ : pyval) (tasklist : option TaskRegister)
    (admin_class : pyval) : M pyval :=
  if negb (callable admin_class) then
    raise (ValueError "Wrapped object must be a function")
  else if negb (bool_decide (interval_ ∈ TYPE)) then
    raise (ValueError
      "Invalid interval. Must be one of ['I', 'H', 'D', 'W', 'M', 'Q', 'Y']")
  else
    let _tasks := default tasks tasklist in
    register _tasks admin_class interval_ minutes_;;
    mret admin_class.

(** The registrations made by the decorators when the module is imported. *)
Definition import_tasks_module : M unit :=
  scheduled_task MINUTES (VInt 5) None (VFunc "InvenTree.tasks.heartbeat");;
  scheduled_task DAILY VNone None (VFunc "InvenTree.tasks.delete_successful_tasks");;
  scheduled_task DAILY VNone None (VFunc "InvenTree.tasks.delete_failed_tasks");;
  scheduled_task DAILY VNone None (VFunc "InvenTree.tasks.delete_old_error_logs");;
  scheduled_task DAILY VNone None (VFunc "InvenTree.tasks.delete_old_notifications");;
  scheduled_task DAILY VNone None (VFunc "InvenTree.tasks.check_for_updates");;
  scheduled_task DAILY VNone None (VFunc "InvenTree.tasks.update_exchange_rates");;
  scheduled_task DAILY VNone None (VFunc "InvenTree.tasks.run_backup");;
  scheduled_task DAILY VNone None (VFunc "InvenTree.tasks.check_for_migrations");;
  mret tt.

(** ** The update check: [check_for_updates] *)

(** *** The regular expression

    The constructs of [r"^.*(\d+)\.(\d+)\.(\d+).*$"], matched as [re.match]
    does: left to right, each repetition greedy, backtracking to a shorter
    repetition when the rest fails. Strings are byte strings: [\d] is an
    ASCII digit, [.] is any byte but a newline. *)
Inductive re_item : Type :=
| ReBol                  (* ^ *)
| ReEol                  (* $ *)
| ReAnyStar              (* .* *)
| ReDigitsGroup          (* (\d+) *)
| ReLit (c : ascii).     (* \. *)

Definition is_digit (a : ascii) : bool :=
  let n := nat_of_ascii a in ((48 <=? n) && (n <=? 57))%nat.

Definition not_newline (a : ascii) : bool :=
  negb (nat_of_ascii a =? 10)%nat.

(** Greedy repetition of a character class: the longest run first, then one
    character fewer, down to none. [taken] is what was consumed so far. *)
Fixpoint greedy {R : Type} (cls : ascii -> bool) (k : string -> string -> option R)
    (taken s : string) : option R :=
  match s with
  | String a s' =>
      if cls a then
        match greedy cls k (taken +:+ String a EmptyString) s' with
        | Some r => Some r
        | None => k taken s
        end
      else k taken s
  | EmptyString => k taken s
  end.

Definition newline : string := String (ascii_of_nat 10) EmptyString.

Fixpoint re_run (items : list re_item) (at_start : bool) (s : string) (groups : list string)
    : option (list string) :=
  match items with
  | [] => Some groups
  | ReBol :: items' => if at_start then re_run items' at_start s groups else None
  | ReEol :: items' =>
      (* the end of the string, or just before a final newline *)
      if bool_decide (s = EmptyString) || bool_decide (s = newline)
      then re_run items' at_start s groups else None
  | ReLit c :: items' =>
      match s with
      | String a s' => if bool_decide (a = c) then re_run items' false s' groups else None
      | EmptyString => None
      end
  | ReAnyStar :: items' =>
      greedy not_newline
        (fun taken rest =>
           re_run items' (at_start && bool_decide (taken = EmptyString)) rest groups)
        EmptyString s
  | ReDigitsGroup :: items' =>
      greedy is_digit
        (fun taken rest =>
           if bool_decide (taken = EmptyString) then None
           else re_run items' false rest (groups ++ [taken]))
        EmptyString s
  end.

(** [re.match(pattern, s)]: [None], or the match with its groups. *)
Definition re_match (pattern : list re_item) (s : string) : option (list string) :=
  re_run pattern true s [].

Definition VERSION_PATTERN : list re_item :=
  [ReBol; ReAnyStar; ReDigitsGroup; ReLit "."; ReDigitsGroup; ReLit ".";
   ReDigitsGroup; ReAnyStar; ReEol].

(** [int(x)] on a string of ASCII digits. *)
Fixpoint int_digits (acc : Z) (s : string) : Z :=
  match s with
  | EmptyString => acc
  | String a s' => int_digits (10 * acc + (Z.of_nat (nat_of_ascii a) - 48)) s'
  end.

Definition int_of_str (s : string) : Z := int_digits 0 s.

(** Lines 470-491: from the tag to the stored version. [re.match] returns
    [None] when the tag does not match, and [None] has no [groups]. *)
Definition store_latest_version (env : Env) (tag : string) : M unit :=
  match re_match VERSION_PATTERN tag with
  | None => raise (AttributeError "'NoneType' object has no attribute 'groups'")
  | Some groups =>
      if negb (length groups =? 3)%nat then
        logger WARNING ("Version '" +:+ tag +:+ "' did not match expected pattern")
      else
        let latest_version := map int_of_str groups in
        if negb (length latest_version =? 3)%nat then
          raise (ValueError ("Version '" +:+ tag +:+ "' is not correct format"))
        else
          logger INFO ("Latest InvenTree version: '" +:+ tag +:+ "'");;
          (* Save the version to the database *)
          InvenTreeSetting_set_setting "_INVENTREE_LATEST_VERSION" tag;;
          (* Record that this task was successful *)
          record_task_success env "check_for_updates"
  end.

(** The request headers only carry the optional token and are not
    represented; the reply is [github_response]. *)
Definition check_for_updates (env : Env) : M unit :=
  if negb (apps_ready env) then
    logger INFO "Could not perform 'check_for_updates' - App registry not ready"
  else
    let interval_ := UPDATE_CHECK_INTERVAL env in
    (* Check if we should check for updates *today* *)
    run ← check_daily_holdoff env "check_for_updates" interval_;
    if negb run then mret tt
    else
      logger INFO "Checking for InvenTree software updates";;
      let response := github_response env in
      if negb (status_code response =? 200) then
        raise (ValueError ("Unexpected status code from GitHub API: "
                           +:+ pretty (status_code response)))
      else
        match body response with
        | JsonInvalid => raise (ValueError "JSONDecodeError")
        | JsonObject tag =>
            match tag with
            | None | Some EmptyString =>
                raise (ValueError "'tag_name' missing from GitHub response")
            | Some tag => store_latest_version env tag
            end
        end.

(** ** The migration job: [check_for_migrations] *)

Definition set_maintenance_mode (b : bool) : M unit := modify (with_maintenance b).
Definition get_maintenance_mode : M bool := gets maintenance.
Definition print (s : string) : M unit := modify (with_printed (fun l => l ++ [s])).

(** Modelled from the spec: the context manager [maintenance_mode_on] of the
    [maintenance_mode] package is not part of the source file. A guarded
    block sets the flag on entry and clears it on exit, however control
    leaves the block. *)
Definition maintenance_mode_on {A : Type} (block : M A) : M A :=
  fun w =>
    match block (with_maintenance true w) with
    | (r, w') => (r, with_maintenance false w')
    end.

Definition call_command_migrate (env : Env) : M unit :=
  match migrate_raises env with
  | Some e => raise e
  | None => mret tt
  end.

Definition reload_plugins : M unit := modify (with_plugin_reloads S).

Fixpoint log_each (lv : level) (msgs : list string) : M unit :=
  match msgs with
  | [] => mret tt
  | m :: msgs' => logger lv m;; log_each lv msgs'
  end.

(** Lines 624-629: the apply step. *)
Definition apply_migrations (env : Env) : M unit :=
  try_except
    (call_command_migrate env)
    is_NotSupportedError
    (fun e =>
       if negb (bool_decide (DATABASE_ENGINE env = "django.db.backends.sqlite3")) then
         raise e
       else
         logger ERROR ("Error during migrations: " +:+ exn_str e)).

Definition check_for_migrations (env : Env) (worker : bool) : M unit :=
  (* Test if auto-updates are enabled *)
  if negb (AUTO_UPDATE env) then mret tt
  else
    let plan := migration_plan env in
    (* Check if there are any open migrations *)
    match plan with
    | [] => logger INFO "There are no open migrations"
    | _ =>
        logger INFO "There are open migrations";;
        log_each INFO plan;;
        logger INFO "Going into maintenance";;
        set_maintenance_mode true;;
        logger INFO "Mainentance mode is on now";;
        (if worker then
           logger INFO "Current process is a worker - shutting down cluster"
         else mret tt);;
        maintenance_mode_on
          (logger INFO "Starting migrations";;
           print "Starting migrations";;
           apply_migrations env;;
           print "Migrations done";;
           logger INFO "Ran migrations");;
        logger INFO "Checking InvenTree left maintenance mode";;
        still_on ← get_maintenance_mode;
        (if still_on : bool then
           logger WARNING "Mainentance was still on - releasing now";;
           set_maintenance_mode false;;
           logger INFO "Released out of maintenance"
         else mret tt);;
        reload_plugins
    end.

(** ** Sample worlds and environments for the examples *)

Definition empty_world : World :=
  MkWorld ∅ [] [] 0%nat [] [] [] [] ∅ false [] 0%nat.

Definition no_args : call_args := CallArgs [] [].

(** The clock of the examples starts at 2023-11-14T22:13:20 and advances by
    one second at every reading. *)
Definition sample_clock (k : nat) : Z :=
  (1700000000 + Z.of_nat k) * US_PER_SECOND.

Definition sample_modules (name : string) : outcome (gmap string pyval) :=
  if bool_decide (name = "part.tasks") then
    Ret {[ "notify_low_stock" := VFunc "part.tasks.notify_low_stock" ]}
  else Raise (ModuleNotFoundError ("No module named '" +:+ name +:+ "'")).

(** The columns of [django_q.models.Schedule], for the examples: the table
    of [sample_env] refuses any other keyword, and an integer that does not
    fit in 64 bits. *)
Definition SCHEDULE_COLUMNS : list string :=
  [ "id"; "name"; "func"; "hook"; "args"; "kwargs"; "schedule_type"; "minutes";
    "repeats"; "next_run"; "cron"; "task"; "cluster" ].

Definition fits_column (v : pyval) : bool :=
  match v with
  | VInt n => (- 2 ^ 63 <=? n) && (n <? 2 ^ 63)
  | _ => true
  end.

Definition sample_store_refuses (columns : gmap string pyval) : option exn :=
  match List.filter (fun kv => negb (bool_decide (kv.1 ∈ SCHEDULE_COLUMNS)))
                    (map_to_list columns) with
  | (k, _) :: _ =>
      Some (TypeError ("Schedule() got unexpected keyword arguments: '" +:+ k +:+ "'"))
  | [] =>
      if forallb (fun kv => fits_column kv.2) (map_to_list columns) then None
      else Some (OverflowError "Python int too large to convert to SQLite INTEGER")
  end.

Definition make_env (imports : import_state) (engine : string) (migrate : option exn)
    (reply : http_response) : Env :=
  {| clock := sample_clock;
     randint := fun a _ => a;
     fromisoformat := fromisoformat_written;
     TESTING := false;
     DATABASE_ENGINE := engine;
     AUTO_UPDATE := true;
     UPDATE_CHECK_INTERVAL := 7;
     apps_ready := true;
     db_error := None;
     store_refuses := sample_store_refuses;
     offload_imports := imports;
     is_worker_running := false;
     import_module := sample_modules;
     builtins := fun _ => None;
     eval_expr := fun _ _ => raise (SyntaxError "invalid syntax");
     call_raises := fun _ _ => None;
     async_run := fun _ _ => None;
     github_response := reply;
     migration_plan := ["part.0042_auto"];
     migrate_raises := migrate |}.

Definition SQLITE_ENGINE : string := "django.db.backends.sqlite3".

(** Everything is up, no worker is running, the only importable module is
    [part.tasks], the releases endpoint answers with ["v1.2.3-final"]. *)
Definition sample_env : Env :=
  make_env ImportsOk SQLITE_ENGINE None (MkResponse 200 (JsonObject (Some "v1.2.3-final"))).

(** [sample_env] with another database engine and a failing migration. *)
Definition failing_migration_env (engine : string) (e : exn) : Env :=
  make_env ImportsOk engine (Some e) (github_response sample_env).

(** [sample_env] with another reply from the releases endpoint. *)
Definition env_with_tag (tag : string) : Env :=
  make_env ImportsOk SQLITE_ENGINE None (MkResponse 200 (JsonObject (Some tag))).

(** [sample_env] before the application registry is ready. *)
Definition registry_not_ready_env : Env :=
  make_env ImportsRegistryNotReady SQLITE_ENGINE None (github_response sample_env).

(** [env] at another state of the application registry. *)
Definition with_apps_ready (b : bool) (env : Env) : Env :=
  {| clock := clock env;
     randint := randint env;
     fromisoformat := fromisoformat env;
     TESTING := TESTING env;
     DATABASE_ENGINE := DATABASE_ENGINE env;
     AUTO_UPDATE := AUTO_UPDATE env;
     UPDATE_CHECK_INTERVAL := UPDATE_CHECK_INTERVAL env;
     apps_ready := b;
     db_error := db_error env;
     store_refuses := store_refuses env;
     offload_imports := offload_imports env;
     is_worker_running := is_worker_running env;
     import_module := import_module env;
     builtins := builtins env;
     eval_expr := eval_expr env;
     call_raises := call_raises env;
     async_run := async_run env;
     github_response := github_response env;
     migration_plan := migration_plan env;
     migrate_raises := migrate_raises env |}.

Definition world_with_settings (kvs : list (string * string)) : World :=
  with_settings (fun _ => list_to_map kvs) empty_world.

(** The keyword arguments [schedule_task] passes on: [repeats] defaults to -1. *)
Definition with_repeats (kwargs : gmap string pyval) : gmap string pyval :=
  <["repeats" := default (VInt (-1)) (kwargs !! "repeats")]> kwargs.

(** The rows of the table that [Schedule.objects.filter(func=taskname)] selects. *)
Definition rows_for (taskname : string) (rows : list sched_row) : list sched_row :=
  List.filter (has_func taskname) rows.

(** The table takes the keyword arguments of a call of [schedule_task],
    both as an update of existing rows and as a new row. *)
Definition store_accepts (env : Env) (taskname : string) (kwargs : gmap string pyval) : Prop :=
  store_refuses env (with_repeats kwargs) = None /\
  store_refuses env
    (<["name" := VStr taskname]> (<["func" := VStr taskname]> (with_repeats kwargs))) = None.

(** A row carries every parameter of a call. *)
Definition carries (kwargs : gmap string pyval) (row : sched_row) : Prop :=
  forall k v, with_repeats kwargs !! k = Some v -> row !! k = Some v.

(** ** Vocabulary of the hold-off properties

    The state of a stored timestamp, read off the settings store and the
    parser: there is none when the key is absent, holds the empty string, or
    holds a text that does not parse; there is a naive one when the key holds
    a non-empty text that parses to a naive datetime. *)
Definition no_timestamp (env : Env) (w : World) (key : string) : Prop :=
  settings w !! key = None \/
  exists s, settings w !! key = Some s /\ (s = "" \/ fromisoformat env s = None).

Definition naive_timestamp (env : Env) (w : World) (key : string) (t : Z) : Prop :=
  exists s, settings w !! key = Some s /\ s <> "" /\ fromisoformat env s = Some (Naive t).

(** A number of microseconds that is a [datetime]. *)
Definition representable (t : Z) : Prop := MIN_DATETIME <= t <= MAX_DATETIME.

(** The start of the window, [now - timedelta(days=n_days)], is a value
    Python can compute. *)
Definition window_representable (now n_days : Z) : Prop :=
  Z.abs n_days <= MAX_TIMEDELTA_DAYS /\ representable (now - timedelta_days n_days).

(** No success of the task is recorded within the window of [n_days]:
    there is no success timestamp, or there is a naive one that is [n_days]
    old or older at the reading of the clock taken to judge it. [k] is the
    number of clock readings taken once the success has been judged. *)
Definition success_outside_window (env : Env) (w : World) (task_name : string)
    (n_days : Z) (k : nat) : Prop :=
  (no_timestamp env w (success_key task_name) /\ k = clock_reads w) \/
  (exists last_success,
      naive_timestamp env w (success_key task_name) last_success /\
      window_representable (clock env (clock_reads w)) n_days /\
      timedelta_days n_days <= clock env (clock_reads w) - last_success /\
      k = S (clock_reads w)).

(** ** Vocabulary of the dispatcher properties *)

(** The dispatch "fails with a logged warning": the call returns normally,
    the log has one more line, a warning, and nothing was invoked or queued. *)
Definition fails_with_warning (w : World) (r : outcome unit * World) : Prop :=
  r.1 = Ret tt /\
  (exists msg, log r.2 = log w ++ [(WARNING, msg)]) /\
  invocations r.2 = invocations w /\
  queue r.2 = queue w.

(** The three ways in which the code gives up on a dotted path. In the
    third the module has no (truthy) attribute of the name, and the name is
    an identifier bound nowhere [eval] looks. *)
Inductive resolution_fails (env : Env) (path : string) (force_async force_sync : bool)
    : Prop :=
| MalformedPath :
    length (split_on "." path) <> 3%nat ->
    resolution_fails env path force_async force_sync
| NoSuchModule (app mod_ func_ : string) (e : exn) :
    split_on "." path = [app; mod_; func_] ->
    import_module env (app +:+ "." +:+ mod_) = Raise e ->
    is_ModuleNotFoundError e = true ->
    resolution_fails env path force_async force_sync
| NoSuchFunction (app mod_ func_ : string) (_mod : gmap string pyval) :
    split_on "." path = [app; mod_; func_] ->
    import_module env (app +:+ "." +:+ mod_) = Ret _mod ->
    truthy (default VNone (_mod !! func_)) = false ->
    is_name func_ = true ->
    scope_lookup env
      (offload_locals (VStr path) force_async force_sync app mod_ func_
                      (app +:+ "." +:+ mod_) (default VNone (_mod !! func_))) func_ = None ->
    resolution_fails env path force_async force_sync.

(** The condition under which [offload_task] goes to the worker pool. *)
Definition goes_async (env : Env) (force_async force_sync : bool) : Prop :=
  force_async = true \/ (is_worker_running env = true /\ force_sync = false).

(** The number of capture groups of a pattern. *)
Definition is_group (item : re_item) : bool :=
  match item with ReDigitsGroup => true | _ => false end.

Definition count_groups (items : list re_item) : nat :=
  length (List.filter is_group items).

(** * Properties

    Every statement below is about the definitions above, run on an
    arbitrary world and environment unless it is an [Example], which runs
    them on [sample_env]. *)

(** ** Running the monad *)

Ltac unfold_monad :=
  unfold mbind, mret, M_bind, M_ret, raise, try_except, modify, gets, logger in *.

Ltac unfold_holdoff :=
  unfold check_daily_holdoff, check_attempt, record_task_attempt, record_task_success,
    InvenTreeSetting_get_setting, InvenTreeSetting_set_setting, datetime_now,
    random_randint, time_sleep in *.

Lemma gtb_true_iff (a b : Z) : (a >? b) = true <-> b < a.
Proof. rewrite Z.gtb_ltb. apply Z.ltb_lt. Qed.

Lemma gtb_false_iff (a b : Z) : (a >? b) = false <-> a <= b.
Proof. rewrite Z.gtb_ltb. apply Z.ltb_ge. Qed.

(** ** Dates and times *)

Example datetime_range :
  MIN_DATETIME = days_from_civil 1 1 1 * US_PER_DAY /\
  MAX_DATETIME = days_from_civil 10000 1 1 * US_PER_DAY - 1 /\
  isoformat MAX_DATETIME = "9999-12-31T23:59:59.999999".
Proof. vm_compute. auto. Qed.

Lemma new_timedelta_days_run (n : Z) (w : World) :
  Z.abs n <= MAX_TIMEDELTA_DAYS ->
  new_timedelta_days n w = (Ret (timedelta_days n), w).
Proof.
  intros H. unfold new_timedelta_days.
  destruct (Z.leb_spec (Z.abs n) MAX_TIMEDELTA_DAYS); [reflexivity | lia].
Qed.

Lemma datetime_sub_run (t delta : Z) (w : World) :
  representable (t - delta) ->
  datetime_sub t delta w = (Ret (t - delta), w).
Proof.
  intros [Hlo Hhi]. unfold datetime_sub.
  destruct (Z.leb_spec MIN_DATETIME (t - delta)); [| lia].
  destruct (Z.leb_spec (t - delta) MAX_DATETIME); [reflexivity | lia].
Qed.

(** ** The hold-off tracker *)

Lemma parse_stored_naive (env : Env) (w : World) (key : string) (t : Z) :
  naive_timestamp env w key t ->
  parse_stored env (default "" (settings w !! key)) = Some (Naive t).
Proof.
  intros (s & Hs & Hne & Hp). unfold parse_stored. rewrite Hs. simpl.
  rewrite bool_decide_eq_false_2; auto.
Qed.

Lemma parse_stored_none (env : Env) (w : World) (key : string) :
  no_timestamp env w key ->
  parse_stored env (default "" (settings w !! key)) = None.
Proof.
  intros [Hs | (s & Hs & [-> | Hp])]; unfold parse_stored; rewrite Hs; simpl.
  - reflexivity.
  - reflexivity.
  - destruct (bool_decide (s = "")); auto.
Qed.

(** The attempt guard on its own, in its three cases. *)
Lemma check_attempt_recent (env : Env) (task_name : string) (w : World) (last_attempt : Z) :
  naive_timestamp env w (attempt_key task_name) last_attempt ->
  representable (clock env (clock_reads w) - timedelta_hours 12) ->
  clock env (clock_reads w) - last_attempt < timedelta_hours 12 ->
  let r := check_attempt env task_name w in
  r.1 = Ret false /\ settings r.2 = settings w /\ clock_reads r.2 = S (clock_reads w).
Proof.
  intros Hla Hrep Hrecent. unfold_holdoff. unfold_monad. cbv beta iota zeta.
  rewrite (parse_stored_naive env w _ _ Hla). cbv beta iota zeta.
  rewrite datetime_sub_run by exact Hrep.
  unfold datetime_gt. unfold_monad. cbv beta iota zeta.
  assert (Hg : (last_attempt >? clock env (clock_reads w) - timedelta_hours 12) = true)
    by (apply gtb_true_iff; lia).
  rewrite Hg. simpl. auto.
Qed.

Lemma check_attempt_old (env : Env) (task_name : string) (w : World) (last_attempt : Z) :
  naive_timestamp env w (attempt_key task_name) last_attempt ->
  representable (clock env (clock_reads w) - timedelta_hours 12) ->
  timedelta_hours 12 <= clock env (clock_reads w) - last_attempt ->
  let r := check_attempt env task_name w in
  r.1 = Ret true /\
  settings r.2 =
    <[attempt_key task_name := isoformat (clock env (S (clock_reads w)))]> (settings w) /\
  clock_reads r.2 = S (S (clock_reads w)).
Proof.
  intros Hla Hrep Hold. unfold_holdoff. unfold_monad. cbv beta iota zeta.
  rewrite (parse_stored_naive env w _ _ Hla). cbv beta iota zeta.
  rewrite datetime_sub_run by exact Hrep.
  unfold datetime_gt. unfold_monad. cbv beta iota zeta.
  assert (Hg : (last_attempt >? clock env (clock_reads w) - timedelta_hours 12) = false)
    by (apply gtb_false_iff; lia).
  rewrite Hg. simpl. auto.
Qed.

Lemma check_attempt_none (env : Env) (task_name : string) (w : World) :
  no_timestamp env w (attempt_key task_name) ->
  let r := check_attempt env task_name w in
  r.1 = Ret true /\
  settings r.2 = <[attempt_key task_name := isoformat (clock env (clock_reads w))]> (settings w) /\
  clock_reads r.2 = S (clock_reads w).
Proof.
  intros Hnone. unfold_holdoff. unfold_monad. cbv beta iota zeta.
  rewrite (parse_stored_none env w _ Hnone). simpl. auto.
Qed.

(** Past its first two tests, [check_daily_holdoff] sleeps and judges the
    success timestamp; with no success inside the window it goes on to the
    attempt guard, in a world with the same settings whose clock has been
    read [k] times. *)
Lemma check_daily_holdoff_to_attempt (env : Env) (task_name : string) (n_days : Z)
    (w : World) (k : nat) :
  apps_ready env = true ->
  0 < n_days ->
  success_outside_window env w task_name n_days k ->
  exists w', check_daily_holdoff env task_name n_days w = check_attempt env task_name w' /\
             settings w' = settings w /\ clock_reads w' = k.
Proof.
  intros Hready Hn Hsucc. unfold check_daily_holdoff. rewrite Hready. simpl.
  destruct (Z.leb_spec n_days 0) as [Hle | _]; [lia |].
  unfold random_randint, time_sleep, InvenTreeSetting_get_setting, datetime_now.
  unfold_monad. cbv beta iota zeta.
  set (w1 := with_sleeps _ w).
  change (settings w1) with (settings w).
  destruct Hsucc as [[Hnone ->] | (ls & Hls & [Hdays Hrep] & Hold & ->)].
  - rewrite (parse_stored_none env w _ Hnone). exists w1. auto.
  - rewrite (parse_stored_naive env w _ _ Hls). cbv beta iota zeta.
    rewrite new_timedelta_days_run by exact Hdays.
    change (clock_reads w1) with (clock_reads w).
    rewrite datetime_sub_run by exact Hrep.
    unfold datetime_gt. unfold_monad. cbv beta iota zeta.
    assert (Hg : (ls >? clock env (clock_reads w) - timedelta_days n_days) = false)
      by (apply gtb_false_iff; lia).
    rewrite Hg. exists (with_clock_reads S w1). auto.
Qed.

(** C6. Once the application registry is ready (so that the import on line
    94 succeeds): for every [n_days <= 0], [check_daily_holdoff] returns
    [False] at once. It has not slept, has not read the clock, and the
    settings store (hence both the attempt and the success timestamp of the
    task) is unchanged; only the log has one more line. *)
Theorem check_daily_holdoff_fails_closed (env : Env) (task_name : string) (n_days : Z)
    (w : World) :
  apps_ready env = true ->
  n_days <= 0 ->
  let r := check_daily_holdoff env task_name n_days w in
  r.1 = Ret false /\
  settings r.2 = settings w /\
  settings r.2 !! attempt_key task_name = settings w !! attempt_key task_name /\
  settings r.2 !! success_key task_name = settings w !! success_key task_name /\
  sleeps r.2 = sleeps w /\
  clock_reads r.2 = clock_reads w.
Proof.
  intros Hready Hn. unfold_holdoff. rewrite Hready. simpl.
  destruct (Z.leb_spec n_days 0) as [_ | Hgt]; [| lia].
  unfold_monad. simpl. repeat split; reflexivity.
Qed.

Lemma check_daily_holdoff_fails_closed_witness :
  let w := world_with_settings [("_run_backup_ATTEMPT", "2020-01-01T00:00:00")] in
  let r := check_daily_holdoff sample_env "run_backup" 0 w in
  r.1 = Ret false /\
  settings r.2 = settings w /\
  settings r.2 !! attempt_key "run_backup" = settings w !! attempt_key "run_backup" /\
  settings r.2 !! success_key "run_backup" = settings w !! success_key "run_backup" /\
  sleeps r.2 = sleeps w /\
  clock_reads r.2 = clock_reads w.
Proof.
  apply (check_daily_holdoff_fails_closed sample_env "run_backup" 0).
  - reflexivity.
  - lia.
Defined.

(** Before the registry is ready the import on line 94 raises, whatever
    [n_days] is, and nothing else happens. *)
Lemma check_daily_holdoff_registry_not_ready (env : Env) (task_name : string) (n_days : Z)
    (w : World) :
  apps_ready env = false ->
  check_daily_holdoff env task_name n_days w = (Raise AppRegistryNotReady, w).
Proof. intros Hready. unfold check_daily_holdoff. rewrite Hready. reflexivity. Qed.

(** C4. With the application registry ready: when the success timestamp of
    the task is present, parses (to a naive datetime, as the tracker writes
    it), and lies strictly within [n_days] of now (the reading of the clock
    the call takes), and the start of the window is a date Python can
    compute, [check_daily_holdoff] returns [False] whatever the attempt
    timestamp is, and writes nothing to the settings store: no new attempt is
    recorded. *)
Theorem check_daily_holdoff_recent_success (env : Env) (task_name : string) (n_days : Z)
    (w : World) (s : string) (last_success : Z) :
  apps_ready env = true ->
  settings w !! success_key task_name = Some s ->
  s <> "" ->
  fromisoformat env s = Some (Naive last_success) ->
  (0 < n_days -> window_representable (clock env (clock_reads w)) n_days) ->
  clock env (clock_reads w) - last_success < timedelta_days n_days ->
  let r := check_daily_holdoff env task_name n_days w in
  r.1 = Ret false /\
  settings r.2 = settings w /\
  settings r.2 !! attempt_key task_name = settings w !! attempt_key task_name.
Proof.
  intros Hready Hs Hne Hp Hwin Hrecent.
  assert (Hst : parse_stored env (default "" (settings w !! success_key task_name))
                = Some (Naive last_success)).
  { apply parse_stored_naive. exists s. auto. }
  unfold check_daily_holdoff. rewrite Hready. simpl.
  destruct (Z.leb_spec n_days 0) as [Hle | Hpos].
  - unfold_monad. simpl. auto.
  - destruct (Hwin Hpos) as [Hdays Hrep].
    unfold random_randint, time_sleep, InvenTreeSetting_get_setting, datetime_now.
    unfold_monad. cbv beta iota zeta.
    set (w1 := with_sleeps _ w).
    change (settings w1) with (settings w). rewrite Hst. cbv beta iota zeta.
    rewrite new_timedelta_days_run by exact Hdays.
    change (clock_reads w1) with (clock_reads w).
    rewrite datetime_sub_run by exact Hrep.
    unfold datetime_gt. unfold_monad. cbv beta iota zeta.
    assert (Hgt : (last_success >? clock env (clock_reads w) - timedelta_days n_days) = true)
      by (apply gtb_true_iff; lia).
    rewrite Hgt. simpl. auto.
Qed.

Lemma check_daily_holdoff_recent_success_witness :
  let w := world_with_settings
             [("_run_backup_SUCCESS", "2023-11-14T10:00:00");
              ("_run_backup_ATTEMPT", "2020-01-01T00:00:00")] in
  let r := check_daily_holdoff sample_env "run_backup" 1 w in
  r.1 = Ret false /\
  settings r.2 = settings w /\
  settings r.2 !! attempt_key "run_backup" = settings w !! attempt_key "run_backup".
Proof.
  apply (check_daily_holdoff_recent_success sample_env "run_backup" 1 _
           "2023-11-14T10:00:00" 1699956000000000).
  - reflexivity.
  - vm_compute. reflexivity.
  - discriminate.
  - vm_compute. reflexivity.
  - intros _. vm_compute. intuition discriminate.
  - vm_compute. reflexivity.
Defined.

(** Outside these conditions the comparison is never reached or refuses its
    operands: a window that starts before year 1 is an [OverflowError] of
    the subtraction on line 116, and a success text with a UTC offset is a
    [TypeError] of the comparison on line 118. *)
Example check_daily_holdoff_window_overflow :
  let w := world_with_settings [("_run_backup_SUCCESS", "2023-11-14T10:00:00")] in
  let r := check_daily_holdoff sample_env "run_backup" 3000000 w in
  r.1 = Raise (OverflowError "date value out of range") /\ settings r.2 = settings w.
Proof. vm_compute. auto. Qed.

Example check_daily_holdoff_aware_success :
  let w := world_with_settings [("_run_backup_SUCCESS", "2023-11-14T10:00:00+00:00")] in
  let r := check_daily_holdoff sample_env "run_backup" 1 w in
  r.1 = Raise (TypeError "can't compare offset-naive and offset-aware datetimes") /\
  settings r.2 = settings w.
Proof. vm_compute. auto. Qed.

Example check_daily_holdoff_aware_attempt :
  let w := world_with_settings [("_run_backup_ATTEMPT", "2023-11-14T10:00:00+01:00")] in
  let r := check_daily_holdoff sample_env "run_backup" 1 w in
  r.1 = Raise (TypeError "can't compare offset-naive and offset-aware datetimes") /\
  settings r.2 = settings w.
Proof. vm_compute. auto. Qed.

(** C3. Let the application registry be ready, [n_days > 0], and let no
    success of the task be recorded within the [n_days] window (no success
    timestamp, or a naive one that is [n_days] old or older); [now] is the
    reading of the clock taken at the attempt guard. If the attempt key
    holds a non-empty text that parses to a naive datetime strictly within
    12 hours of [now], [check_daily_holdoff] returns [False] and writes
    nothing. Otherwise (such a timestamp 12 hours old or older, or no attempt
    stored, or an empty text, or a text that does not parse) it returns
    [True], and the only change to the settings store is the attempt
    timestamp of the task, which is now the ISO text of the clock reading
    taken by [record_task_attempt]. *)
Theorem check_daily_holdoff_attempt_guard (env : Env) (task_name : string) (n_days : Z)
    (w : World) (k : nat) :
  apps_ready env = true ->
  0 < n_days ->
  success_outside_window env w task_name n_days k ->
  let r := check_daily_holdoff env task_name n_days w in
  let now := clock env k in
  (forall last_attempt,
      naive_timestamp env w (attempt_key task_name) last_attempt ->
      representable (now - timedelta_hours 12) ->
      now - last_attempt < timedelta_hours 12 ->
      r.1 = Ret false /\ settings r.2 = settings w) /\
  (forall last_attempt,
      naive_timestamp env w (attempt_key task_name) last_attempt ->
      representable (now - timedelta_hours 12) ->
      timedelta_hours 12 <= now - last_attempt ->
      r.1 = Ret true /\
      settings r.2 = <[attempt_key task_name := isoformat (clock env (S k))]> (settings w)) /\
  (no_timestamp env w (attempt_key task_name) ->
      r.1 = Ret true /\
      settings r.2 = <[attempt_key task_name := isoformat now]> (settings w)).
Proof.
  intros Hready Hn Hsucc r now. subst r now.
  destruct (check_daily_holdoff_to_attempt env task_name n_days w k Hready Hn Hsucc)
    as (w' & -> & Hset & <-).
  split; [| split].
  - intros la Hla Hrep Hrecent.
    destruct (check_attempt_recent env task_name w' la) as (H1 & H2 & _); auto.
    + unfold naive_timestamp. rewrite Hset. exact Hla.
    + rewrite H2. auto.
  - intros la Hla Hrep Hold.
    destruct (check_attempt_old env task_name w' la) as (H1 & H2 & _); auto.
    + unfold naive_timestamp. rewrite Hset. exact Hla.
    + rewrite H2, Hset. auto.
  - intros Hnone.
    destruct (check_attempt_none env task_name w') as (H1 & H2 & _).
    + unfold no_timestamp. rewrite Hset. exact Hnone.
    + rewrite H2, Hset. auto.
Qed.

Lemma check_daily_holdoff_attempt_guard_witness :
  let env := sample_env in
  let task_name := "check_for_updates" in
  let w := world_with_settings
             [("_check_for_updates_SUCCESS", "2023-11-01T00:00:00");
              ("_check_for_updates_ATTEMPT", "2023-11-14T11:13:21")] in
  let r := check_daily_holdoff env task_name 7 w in
  let now := clock env 1 in
  (forall last_attempt,
      naive_timestamp env w (attempt_key task_name) last_attempt ->
      representable (now - timedelta_hours 12) ->
      now - last_attempt < timedelta_hours 12 ->
      r.1 = Ret false /\ settings r.2 = settings w) /\
  (forall last_attempt,
      naive_timestamp env w (attempt_key task_name) last_attempt ->
      representable (now - timedelta_hours 12) ->
      timedelta_hours 12 <= now - last_attempt ->
      r.1 = Ret true /\
      settings r.2 = <[attempt_key task_name := isoformat (clock env 2)]> (settings w)) /\
  (no_timestamp env w (attempt_key task_name) ->
      r.1 = Ret true /\
      settings r.2 = <[attempt_key task_name := isoformat now]> (settings w)).
Proof.
  apply (check_daily_holdoff_attempt_guard sample_env "check_for_updates" 7 _ 1%nat).
  - reflexivity.
  - lia.
  - right. exists 1698796800000000.
    split; [exists "2023-11-01T00:00:00"; split; [vm_compute; reflexivity |];
            split; [discriminate | vm_compute; reflexivity] |].
    split; [vm_compute; intuition discriminate |].
    split; [vm_compute; discriminate | reflexivity].
Defined.

(** The three cases, evaluated. A success two weeks old and an attempt
    eleven hours and 59 minutes old: the task is held back. *)
Example check_daily_holdoff_recent_attempt :
  let w := world_with_settings
             [("_check_for_updates_SUCCESS", "2023-11-01T00:00:00");
              ("_check_for_updates_ATTEMPT", "2023-11-14T10:14:21")] in
  let r := check_daily_holdoff sample_env "check_for_updates" 7 w in
  r.1 = Ret false /\ settings r.2 = settings w.
Proof. vm_compute. auto. Qed.

(** The stale attempt is replaced by the reading taken when the attempt is
    recorded. *)
Example check_daily_holdoff_records_attempt :
  let w := world_with_settings
             [("_check_for_updates_SUCCESS", "2023-11-01T00:00:00");
              ("_check_for_updates_ATTEMPT", "2023-11-14T09:00:00")] in
  let r := check_daily_holdoff sample_env "check_for_updates" 7 w in
  r.1 = Ret true /\
  settings r.2 !! "_check_for_updates_ATTEMPT" = Some "2023-11-14T22:13:22" /\
  settings r.2 !! "_check_for_updates_SUCCESS" = Some "2023-11-01T00:00:00".
Proof. vm_compute. auto. Qed.

(** An attempt exactly twelve hours old does not hold the task back. *)
Example check_daily_holdoff_attempt_at_12h :
  let w := world_with_settings [("_run_backup_ATTEMPT", "2023-11-14T10:13:20")] in
  let r := check_daily_holdoff sample_env "run_backup" 1 w in
  r.1 = Ret true /\
  settings r.2 !! "_run_backup_ATTEMPT" = Some "2023-11-14T22:13:21".
Proof. vm_compute. auto. Qed.

(** A text that is not a timestamp counts as no attempt. *)
Example check_daily_holdoff_unparsable_attempt :
  let w := world_with_settings [("_run_backup_ATTEMPT", "yesterday")] in
  let r := check_daily_holdoff sample_env "run_backup" 1 w in
  r.1 = Ret true /\
  settings r.2 !! "_run_backup_ATTEMPT" = Some "2023-11-14T22:13:20".
Proof. vm_compute. auto. Qed.

(** ** Scheduler integration *)

Section ScheduleFacts.
Variable taskname : string.

Lemma has_func_update_row (kwargs : gmap string pyval) (row : sched_row) :
  kwargs !! "func" = None ->
  has_func taskname (update_row taskname kwargs row) = has_func taskname row.
Proof.
  intros Hk. unfold update_row.
  destruct (has_func taskname row) eqn:Hrow; [| exact Hrow].
  unfold has_func in *. apply bool_decide_eq_true in Hrow.
  apply bool_decide_eq_true.
  rewrite lookup_union_r by exact Hk. exact Hrow.
Qed.

Lemma rows_for_update (kwargs : gmap string pyval) (rows : list sched_row) :
  kwargs !! "func" = None ->
  rows_for taskname (map (update_row taskname kwargs) rows)
  = map (fun row => kwargs ∪ row) (rows_for taskname rows).
Proof.
  intros Hk. unfold rows_for.
  induction rows as [| row rows IH]; simpl; [reflexivity |].
  rewrite has_func_update_row by exact Hk.
  destruct (has_func taskname row) eqn:Hrow; simpl.
  - rewrite IH. unfold update_row. rewrite Hrow. reflexivity.
  - exact IH.
Qed.

Lemma existsb_rows_for (rows : list sched_row) :
  existsb (has_func taskname) rows = false -> rows_for taskname rows = [].
Proof.
  unfold rows_for. induction rows as [| row rows IH]; simpl; [reflexivity |].
  intros H. apply orb_false_iff in H as [Hrow Hrest].
  rewrite Hrow. auto.
Qed.

Lemma rows_for_existsb (rows : list sched_row) :
  existsb (has_func taskname) rows = true -> rows_for taskname rows <> [].
Proof.
  unfold rows_for. induction rows as [| row rows IH]; simpl; [discriminate |].
  destruct (has_func taskname row); simpl; [discriminate | exact IH].
Qed.

Lemma new_row_has_func (kwargs : gmap string pyval) :
  has_func taskname (<["name" := VStr taskname]> (<["func" := VStr taskname]> kwargs)) = true.
Proof.
  unfold has_func. apply bool_decide_eq_true.
  rewrite lookup_insert_ne by discriminate. apply lookup_insert_eq.
Qed.

Lemma rows_for_create (kwargs : gmap string pyval) (rows : list sched_row) :
  rows_for taskname
    (rows ++ [<["name" := VStr taskname]> (<["func" := VStr taskname]> kwargs)])
  = rows_for taskname rows
    ++ [<["name" := VStr taskname]> (<["func" := VStr taskname]> kwargs)].
Proof.
  unfold rows_for. rewrite List.filter_app. simpl.
  rewrite new_row_has_func. reflexivity.
Qed.
End ScheduleFacts.

Lemma with_repeats_lookup_ne (kwargs : gmap string pyval) (k : string) :
  k <> "repeats" -> with_repeats kwargs !! k = kwargs !! k.
Proof. intros H. unfold with_repeats. apply lookup_insert_ne. congruence. Qed.

(** What one call does when the application registry and the database are
    ready, the table takes the keyword arguments, and these do not name the
    [func] column (nor, when a row has to be created, the [name] column). *)
Lemma schedule_task_run (env : Env) (taskname : string) (kwargs : gmap string pyval)
    (w : World) :
  apps_ready env = true ->
  db_error env = None ->
  store_accepts env taskname kwargs ->
  (existsb (has_func taskname) (schedules w) = false -> kwargs !! "name" = None) ->
  kwargs !! "func" = None ->
  let r := schedule_task env taskname kwargs w in
  r.1 = Ret tt /\
  schedules r.2 =
    (if existsb (has_func taskname) (schedules w)
     then map (update_row taskname (with_repeats kwargs)) (schedules w)
     else schedules w
          ++ [<["name" := VStr taskname]> (<["func" := VStr taskname]> (with_repeats kwargs))]).
Proof.
  intros Hready Hdb [Hupd Hnew] Hname Hfunc.
  unfold schedule_task, Schedule_filter_exists, Schedule_filter_update, Schedule_create,
    store_check, db_query.
  rewrite Hready, Hdb. fold (with_repeats kwargs).
  unfold_monad. simpl.
  destruct (existsb (has_func taskname) (schedules w)) eqn:Hex; simpl.
  - rewrite Hupd. simpl. auto.
  - rewrite !with_repeats_lookup_ne by discriminate.
    rewrite (Hname eq_refl), Hfunc. rewrite Hnew. simpl. auto.
Qed.

(** The rows for the name after such a call: the rows that were there,
    each updated, or the one new row. *)
Lemma schedule_task_rows_for (env : Env) (taskname : string) (kwargs : gmap string pyval)
    (w : World) :
  apps_ready env = true ->
  db_error env = None ->
  store_accepts env taskname kwargs ->
  (existsb (has_func taskname) (schedules w) = false -> kwargs !! "name" = None) ->
  kwargs !! "func" = None ->
  rows_for taskname (schedules (schedule_task env taskname kwargs w).2) =
    match rows_for taskname (schedules w) with
    | [] => [<["name" := VStr taskname]> (<["func" := VStr taskname]> (with_repeats kwargs))]
    | rows => map (fun row => with_repeats kwargs ∪ row) rows
    end.
Proof.
  intros Hready Hdb Hacc Hname Hfunc.
  destruct (schedule_task_run env taskname kwargs w Hready Hdb Hacc Hname Hfunc) as [_ ->].
  assert (Hf : with_repeats kwargs !! "func" = None)
    by (rewrite with_repeats_lookup_ne by discriminate; exact Hfunc).
  destruct (existsb (has_func taskname) (schedules w)) eqn:Hex.
  - rewrite rows_for_update by exact Hf.
    pose proof (rows_for_existsb taskname _ Hex) as Hne.
    destruct (rows_for taskname (schedules w)); [congruence | reflexivity].
  - rewrite rows_for_create, (existsb_rows_for taskname _ Hex). reflexivity.
Qed.

Lemma rows_for_has_func (taskname : string) (rows : list sched_row) (row : sched_row) :
  row ∈ rows_for taskname rows -> row !! "func" = Some (VStr taskname).
Proof.
  intros Hin. apply list_elem_of_In in Hin. apply List.filter_In in Hin as [_ Hhas].
  unfold has_func in Hhas. apply bool_decide_eq_true in Hhas. exact Hhas.
Qed.

(** C7, as amended. With the application registry and the database ready
    and keyword arguments the table takes (scheduling parameters, not the
    [name] or [func] column): after two calls of [schedule_task] for the
    same name the table holds as many rows whose [func] is that name as it
    held before, and one if it held none; each of them carries every
    parameter of the second call ([repeats] defaulting to -1). So there is
    exactly one such row when the table held at most one before. The first
    call updates the rows for the name in place when there is one, and
    otherwise adds a row with [name = func = taskname]; the second call
    always updates in place. *)
Theorem schedule_task_upsert (env : Env) (taskname : string)
    (kwargs1 kwargs2 : gmap string pyval) (w : World) :
  apps_ready env = true ->
  db_error env = None ->
  kwargs1 !! "name" = None -> kwargs1 !! "func" = None ->
  kwargs2 !! "func" = None ->
  store_accepts env taskname kwargs1 ->
  store_accepts env taskname kwargs2 ->
  let r1 := schedule_task env taskname kwargs1 w in
  let r2 := schedule_task env taskname kwargs2 r1.2 in
  r1.1 = Ret tt /\ r2.1 = Ret tt /\
  length (rows_for taskname (schedules r2.2))
    = Nat.max 1 (length (rows_for taskname (schedules w))) /\
  (forall row, row ∈ rows_for taskname (schedules r2.2) ->
     row !! "func" = Some (VStr taskname) /\ carries kwargs2 row) /\
  ((length (rows_for taskname (schedules w)) <= 1)%nat ->
     exists row, rows_for taskname (schedules r2.2) = [row]) /\
  schedules r1.2 =
    (if existsb (has_func taskname) (schedules w)
     then map (update_row taskname (with_repeats kwargs1)) (schedules w)
     else schedules w
          ++ [<["name" := VStr taskname]> (<["func" := VStr taskname]> (with_repeats kwargs1))]) /\
  schedules r2.2 = map (update_row taskname (with_repeats kwargs2)) (schedules r1.2).
Proof.
  intros Hready Hdb Hname1 Hfunc1 Hfunc2 Hacc1 Hacc2 r1 r2.
  destruct (schedule_task_run env taskname kwargs1 w Hready Hdb Hacc1 (fun _ => Hname1) Hfunc1)
    as [Hret1 Hrows1].
  fold r1 in Hret1, Hrows1.
  pose proof (schedule_task_rows_for env taskname kwargs1 w Hready Hdb Hacc1
                (fun _ => Hname1) Hfunc1) as Hfor1.
  fold r1 in Hfor1.
  assert (Hf2 : with_repeats kwargs2 !! "func" = None)
    by (rewrite with_repeats_lookup_ne by discriminate; exact Hfunc2).
  (* after the first call there is a row for the name *)
  assert (Hlen1 : length (rows_for taskname (schedules r1.2))
                  = Nat.max 1 (length (rows_for taskname (schedules w)))).
  { rewrite Hfor1. destruct (rows_for taskname (schedules w)) as [| row0 rest]; simpl.
    - reflexivity.
    - rewrite length_map. reflexivity. }
  assert (Hex1 : existsb (has_func taskname) (schedules r1.2) = true).
  { destruct (existsb (has_func taskname) (schedules r1.2)) eqn:Hex; [reflexivity |].
    rewrite (existsb_rows_for taskname _ Hex) in Hlen1. simpl in Hlen1. lia. }
  destruct (schedule_task_run env taskname kwargs2 r1.2 Hready Hdb Hacc2) as [Hret2 Hrows2];
    [rewrite Hex1; discriminate | exact Hfunc2 |].
  fold r2 in Hret2, Hrows2. rewrite Hex1 in Hrows2.
  assert (Hfor2 : rows_for taskname (schedules r2.2)
                  = map (fun row => with_repeats kwargs2 ∪ row)
                        (rows_for taskname (schedules r1.2))).
  { rewrite Hrows2. apply rows_for_update. exact Hf2. }
  split; [exact Hret1 |]. split; [exact Hret2 |].
  split; [rewrite Hfor2, length_map; exact Hlen1 |].
  split; [| split; [| split; [exact Hrows1 | exact Hrows2]]].
  - intros row Hin. split; [exact (rows_for_has_func _ _ _ Hin) |].
    rewrite Hfor2 in Hin. apply list_elem_of_fmap in Hin as (row1 & -> & _).
    intros k v Hk. apply lookup_union_Some_l. exact Hk.
  - intros Hone.
    assert (Hl : length (rows_for taskname (schedules r2.2)) = 1%nat)
      by (rewrite Hfor2, length_map, Hlen1; lia).
    destruct (rows_for taskname (schedules r2.2)) as [| row [| row' rest]];
      simpl in Hl; try lia. eauto.
Qed.

Lemma schedule_task_upsert_witness :
  let taskname := "InvenTree.tasks.heartbeat" in
  let kwargs1 : gmap string pyval := {[ "schedule_type" := VStr "I"; "minutes" := VInt 5 ]} in
  let kwargs2 : gmap string pyval := {[ "schedule_type" := VStr "D"; "repeats" := VInt 3 ]} in
  let w := empty_world in
  let r1 := schedule_task sample_env taskname kwargs1 w in
  let r2 := schedule_task sample_env taskname kwargs2 r1.2 in
  r1.1 = Ret tt /\ r2.1 = Ret tt /\
  length (rows_for taskname (schedules r2.2))
    = Nat.max 1 (length (rows_for taskname (schedules w))) /\
  (forall row, row ∈ rows_for taskname (schedules r2.2) ->
     row !! "func" = Some (VStr taskname) /\ carries kwargs2 row) /\
  ((length (rows_for taskname (schedules w)) <= 1)%nat ->
     exists row, rows_for taskname (schedules r2.2) = [row]) /\
  schedules r1.2 =
    (if existsb (has_func taskname) (schedules w)
     then map (update_row taskname (with_repeats kwargs1)) (schedules w)
     else schedules w
          ++ [<["name" := VStr taskname]> (<["func" := VStr taskname]> (with_repeats kwargs1))]) /\
  schedules r2.2 = map (update_row taskname (with_repeats kwargs2)) (schedules r1.2).
Proof.
  apply (schedule_task_upsert sample_env "InvenTree.tasks.heartbeat").
  - reflexivity.
  - reflexivity.
  - reflexivity.
  - reflexivity.
  - reflexivity.
  - split; vm_compute; reflexivity.
  - split; vm_compute; reflexivity.
Defined.

(** The table after the two calls of the witness: one row; the period of
    the first call survives because the second call does not pass it. *)
Example schedule_task_twice :
  let kwargs1 : gmap string pyval := {[ "schedule_type" := VStr "I"; "minutes" := VInt 5 ]} in
  let kwargs2 : gmap string pyval := {[ "schedule_type" := VStr "D"; "repeats" := VInt 3 ]} in
  let r1 := schedule_task sample_env "InvenTree.tasks.heartbeat" kwargs1 empty_world in
  let r2 := schedule_task sample_env "InvenTree.tasks.heartbeat" kwargs2 r1.2 in
  schedules r1.2 =
    [ {[ "name" := VStr "InvenTree.tasks.heartbeat"; "func" := VStr "InvenTree.tasks.heartbeat";
         "schedule_type" := VStr "I"; "minutes" := VInt 5; "repeats" := VInt (-1) ]} ] /\
  schedules r2.2 =
    [ {[ "name" := VStr "InvenTree.tasks.heartbeat"; "func" := VStr "InvenTree.tasks.heartbeat";
         "schedule_type" := VStr "D"; "minutes" := VInt 5; "repeats" := VInt 3 ]} ].
Proof. vm_compute. split; reflexivity. Qed.

(** C7, the claim as stated, fails. The table holds two entries whose
    [func] is ["x"] (nothing in the table forbids it); both calls succeed,
    each updates both entries in place, and two entries remain, not one. *)
Lemma schedule_task_keeps_duplicates :
  let row1 : sched_row := {[ "name" := VStr "first"; "func" := VStr "x";
                             "schedule_type" := VStr "H" ]} in
  let row2 : sched_row := {[ "name" := VStr "second"; "func" := VStr "x";
                             "schedule_type" := VStr "W" ]} in
  let w := with_schedules (fun _ => [row1; row2]) empty_world in
  let kwargs : gmap string pyval := {[ "schedule_type" := VStr "D"; "repeats" := VInt (-1) ]} in
  let r1 := schedule_task sample_env "x" kwargs w in
  let r2 := schedule_task sample_env "x" kwargs r1.2 in
  r1.1 = Ret tt /\ r2.1 = Ret tt /\
  rows_for "x" (schedules r2.2) =
    [ {[ "name" := VStr "first"; "func" := VStr "x";
         "schedule_type" := VStr "D"; "repeats" := VInt (-1) ]};
      {[ "name" := VStr "second"; "func" := VStr "x";
         "schedule_type" := VStr "D"; "repeats" := VInt (-1) ]} ] /\
  ~ (exists row, rows_for "x" (schedules r2.2) = [row]).
Proof.
  split; [vm_compute; reflexivity |]. split; [vm_compute; reflexivity |].
  split; [vm_compute; reflexivity |].
  intros [row H]. vm_compute in H. discriminate.
Qed.

(** Keyword arguments the table refuses leave the call with the error of
    the table, and no row is written: a keyword that is not a column, an
    integer that does not fit its column. *)
Example schedule_task_unknown_column :
  let r := schedule_task sample_env "x" {[ "interval" := VStr "D" ]} empty_world in
  r.1 = Raise (TypeError "Schedule() got unexpected keyword arguments: 'interval'") /\
  schedules r.2 = [].
Proof. vm_compute. auto. Qed.

Example schedule_task_integer_too_large :
  let r := schedule_task sample_env "x" {[ "minutes" := VInt (2 ^ 63) ]} empty_world in
  r.1 = Raise (OverflowError "Python int too large to convert to SQLite INTEGER") /\
  schedules r.2 = [].
Proof. vm_compute. auto. Qed.

(** ** The dispatcher *)

Lemma raise_warning_run (env : Env) (msg : string) (w : World) :
  let r := raise_warning env msg w in
  r.1 = Ret tt /\ log r.2 = log w ++ [(WARNING, msg)] /\
  invocations r.2 = invocations w /\ queue r.2 = queue w.
Proof.
  unfold raise_warning. unfold_monad. simpl.
  destruct (TESTING env); simpl; auto.
Qed.

Lemma raise_warning_fails_with_warning (env : Env) (msg : string) (w : World) :
  fails_with_warning w (raise_warning env msg w).
Proof.
  destruct (raise_warning_run env msg w) as (H1 & H2 & H3 & H4).
  unfold fails_with_warning. eauto.
Qed.

(** With the imports done, [offload_task] is one of its two branches. *)
Lemma offload_task_branches (env : Env) (taskname : pyval) (args : call_args)
    (force_async force_sync : bool) (w : World) :
  offload_imports env = ImportsOk ->
  offload_task env taskname args force_async force_sync w =
    if force_async || (is_worker_running env && negb force_sync)
    then offload_async env taskname args w
    else offload_sync env taskname args force_async force_sync w.
Proof.
  intros Himp. unfold offload_task. rewrite Himp. unfold_monad. simpl.
  destruct force_async; simpl; [reflexivity |].
  destruct (is_worker_running env && negb force_sync); reflexivity.
Qed.

Lemma goes_async_decide (env : Env) (force_async force_sync : bool) :
  goes_async env force_async force_sync <->
  force_async || (is_worker_running env && negb force_sync) = true.
Proof.
  unfold goes_async.
  destruct force_async, (is_worker_running env), force_sync; simpl; intuition congruence.
Qed.

Lemma py_call_queue (env : Env) (f : pyval) (args : call_args) (w : World) :
  queue (py_call env f args w).2 = queue w.
Proof.
  unfold py_call. unfold_monad.
  destruct f; simpl; try reflexivity.
  destruct (call_raises env name args); reflexivity.
Qed.

Lemma py_call_function (env : Env) (name : string) (args : call_args) (w : World) :
  invocations (py_call env (VFunc name) args w).2 = invocations w ++ [(name, args)].
Proof.
  unfold py_call. unfold_monad. simpl.
  destruct (call_raises env name args); reflexivity.
Qed.

Lemma raise_warning_queue (env : Env) (msg : string) (w : World) :
  queue (raise_warning env msg w).2 = queue w.
Proof. apply raise_warning_run. Qed.

Lemma raise_warning_invocations (env : Env) (msg : string) (w : World) :
  invocations (raise_warning env msg w).2 = invocations w.
Proof. apply raise_warning_run. Qed.

(** [eval] of a bare name is a lookup: it changes nothing, and a name
    bound in none of the three scopes raises [NameError]. *)
Lemma py_eval_name (env : Env) (locals : list (string * pyval)) (name : string) (w : World) :
  is_name name = true ->
  py_eval env locals name w =
    (match scope_lookup env locals name with
     | Some v => Ret v
     | None => Raise (NameError ("name '" +:+ name +:+ "' is not defined"))
     end, w).
Proof.
  intros Hname. unfold py_eval. rewrite Hname.
  destruct (scope_lookup env locals name); reflexivity.
Qed.

(** The synchronous branch gives up with a warning in each of the three
    cases of [resolution_fails]. *)
Lemma offload_sync_resolution_fails (env : Env) (path : string) (args : call_args)
    (force_async force_sync : bool) (w : World) :
  resolution_fails env path force_async force_sync ->
  fails_with_warning w (offload_sync env (VStr path) args force_async force_sync w).
Proof.
  intros Hfail. unfold offload_sync. simpl.
  destruct Hfail as [Hlen | app mod_ func_ e Hsplit Himp He
                    | app mod_ func_ _mod Hsplit Himp Hfalsy Hname Hscope].
  - destruct (split_on "." path) as [| a [| b [| c [| d rest]]]];
      try apply raise_warning_fails_with_warning.
    simpl in Hlen. congruence.
  - rewrite Hsplit, Himp, He. apply raise_warning_fails_with_warning.
  - rewrite Hsplit, Himp, Hfalsy. simpl.
    unfold mbind, M_bind, try_except at 1.
    rewrite py_eval_name by exact Hname. rewrite Hscope. simpl.
    unfold mbind, M_bind.
    pose proof (raise_warning_run env
      ("WARNING: '" +:+ path +:+ "' not started - No function named '" +:+ func_ +:+ "'") w)
      as (H1 & H2 & H3 & H4).
    destruct (raise_warning env _ w) as [[[] | e'] w'] eqn:Hrw; simpl in *; try discriminate.
    unfold fails_with_warning. simpl. eauto.
Qed.

(** A name the module lacks and [eval] finds is called like any other
    value. *)
Lemma offload_sync_eval_resolved (env : Env) (path app mod_ func_ : string)
    (_mod : gmap string pyval) (v : pyval) (args : call_args)
    (force_async force_sync : bool) (w : World) :
  split_on "." path = [app; mod_; func_] ->
  import_module env (app +:+ "." +:+ mod_) = Ret _mod ->
  truthy (default VNone (_mod !! func_)) = false ->
  is_name func_ = true ->
  scope_lookup env
    (offload_locals (VStr path) force_async force_sync app mod_ func_
                    (app +:+ "." +:+ mod_) (default VNone (_mod !! func_))) func_ = Some v ->
  offload_sync env (VStr path) args force_async force_sync w = py_call env v args w.
Proof.
  intros Hsplit Himp Hfalsy Hname Hscope. unfold offload_sync. simpl.
  rewrite Hsplit, Himp, Hfalsy. simpl.
  unfold mbind, M_bind, try_except at 1.
  rewrite py_eval_name by exact Hname. rewrite Hscope. reflexivity.
Qed.

Lemma py_call_log (env : Env) (f : pyval) (args : call_args) (w : World) :
  log (py_call env f args w).2 = log w.
Proof.
  unfold py_call. unfold_monad.
  destruct f; simpl; try reflexivity.
  destruct (call_raises env name args); reflexivity.
Qed.

Lemma py_call_not_callable (env : Env) (f : pyval) (args : call_args) (w : World) :
  callable f = false ->
  py_call env f args w =
    (Raise (TypeError ("'" +:+ py_type_name f +:+ "' object is not callable")), w).
Proof. intros Hf. destruct f; try discriminate; reflexivity. Qed.

(** C2, as amended. On the synchronous path, for a task given as a string:
    if the string does not split into exactly three components, or importing
    the two-component module path raises [ModuleNotFoundError], or the module
    has no (truthy) attribute of that name and the name is an identifier
    bound nowhere in the dispatcher's own scope either (so that evaluating
    it raises [NameError]), then the call returns normally with one warning
    logged, and nothing is invoked or queued. An identifier the module lacks
    but [eval] finds in that scope is resolved to the value bound there and
    called: nothing more is logged, a callable is invoked once with the
    supplied arguments, and for any other value the [TypeError] of the call
    reaches the caller. *)
Theorem offload_task_unresolved_string (env : Env) (path : string) (args : call_args)
    (force_async force_sync : bool) (w : World) :
  offload_imports env = ImportsOk ->
  ~ goes_async env force_async force_sync ->
  let r := offload_task env (VStr path) args force_async force_sync w in
  (resolution_fails env path force_async force_sync -> fails_with_warning w r) /\
  (forall app mod_ func_ _mod v,
     split_on "." path = [app; mod_; func_] ->
     import_module env (app +:+ "." +:+ mod_) = Ret _mod ->
     truthy (default VNone (_mod !! func_)) = false ->
     is_name func_ = true ->
     scope_lookup env
       (offload_locals (VStr path) force_async force_sync app mod_ func_
                       (app +:+ "." +:+ mod_) (default VNone (_mod !! func_))) func_ = Some v ->
     r = py_call env v args w /\
     log r.2 = log w /\
     (forall name, v = VFunc name -> invocations r.2 = invocations w ++ [(name, args)]) /\
     (callable v = false ->
        r.1 = Raise (TypeError ("'" +:+ py_type_name v +:+ "' object is not callable")) /\
        invocations r.2 = invocations w)).
Proof.
  intros Himp Hsync r. subst r.
  rewrite offload_task_branches by exact Himp.
  rewrite goes_async_decide in Hsync. apply not_true_is_false in Hsync.
  rewrite Hsync. split.
  - apply offload_sync_resolution_fails.
  - intros app mod_ func_ _mod v Hsplit Hmod Hfalsy Hname Hscope.
    rewrite (offload_sync_eval_resolved env path app mod_ func_ _mod v) by assumption.
    split; [reflexivity |]. split; [apply py_call_log |]. split.
    + intros name ->. apply py_call_function.
    + intros Hnc. rewrite py_call_not_callable by exact Hnc. auto.
Qed.

Lemma offload_task_unresolved_string_witness :
  fails_with_warning empty_world
    (offload_task sample_env (VStr "part.tasks.no_such_task") no_args false true empty_world).
Proof.
  apply (offload_task_unresolved_string sample_env "part.tasks.no_such_task" no_args
           false true empty_world).
  - reflexivity.
  - unfold goes_async. simpl. intros [H | [H _]]; discriminate.
  - apply (NoSuchFunction sample_env _ false true "part" "tasks" "no_such_task"
             {[ "notify_low_stock" := VFunc "part.tasks.notify_low_stock" ]});
      reflexivity.
Defined.

(** The three cases, evaluated. *)
Example offload_task_two_components :
  let r := offload_task sample_env (VStr "a.b") no_args false true empty_world in
  r.1 = Ret tt /\ invocations r.2 = [] /\
  log r.2 = [(WARNING, "WARNING: 'a.b' not started - Malformed function path")].
Proof. vm_compute. auto. Qed.

Example offload_task_no_module :
  let r := offload_task sample_env (VStr "stock.tasks.cleanup") no_args false true empty_world in
  r.1 = Ret tt /\ invocations r.2 = [] /\
  log r.2 = [(WARNING, "WARNING: 'stock.tasks.cleanup' not started - No module named 'stock.tasks'")].
Proof. vm_compute. auto. Qed.

Example offload_task_no_function :
  let r := offload_task sample_env (VStr "part.tasks.no_such_task") no_args false true
             empty_world in
  r.1 = Ret tt /\ invocations r.2 = [] /\
  log r.2 = [(WARNING, "WARNING: 'part.tasks.no_such_task' not started - No function named 'no_such_task'")].
Proof. vm_compute. auto. Qed.

Example offload_task_resolved :
  let args := CallArgs [VInt 7] [] in
  let r := offload_task sample_env (VStr "part.tasks.notify_low_stock") args false true
             empty_world in
  r.1 = Ret tt /\ log r.2 = [] /\
  invocations r.2 = [("part.tasks.notify_low_stock", args)].
Proof. vm_compute. auto. Qed.

(** C2, the claim as stated, fails. The module [part.tasks] is imported and
    has no attribute [heartbeat], so the named function cannot be found in
    that module; the code then evaluates the name in its own scope, finds the
    [heartbeat] of [InvenTree/tasks.py], and calls it: no warning is logged
    and a function is invoked. *)
Lemma offload_task_missing_function_falls_back_to_eval :
  let r := offload_task sample_env (VStr "part.tasks.heartbeat") no_args false true
             empty_world in
  (exists _mod, import_module sample_env "part.tasks" = Ret _mod /\ _mod !! "heartbeat" = None) /\
  r.1 = Ret tt /\
  log r.2 = [] /\
  invocations r.2 = [("InvenTree.tasks.heartbeat", no_args)] /\
  ~ fails_with_warning empty_world r.
Proof.
  split; [eexists; split; reflexivity |].
  split; [reflexivity |]. split; [reflexivity |]. split; [reflexivity |].
  intros (_ & _ & Hinv & _). vm_compute in Hinv. discriminate.
Qed.

(** A name that [eval] finds among the local variables of the dispatcher
    resolves to a value that is not callable, and the [TypeError] of the call
    reaches the caller. *)
Example offload_task_eval_finds_local :
  let r := offload_task sample_env (VStr "part.tasks.func") no_args false true empty_world in
  r.1 = Raise (TypeError "'str' object is not callable") /\ log r.2 = [].
Proof. vm_compute. auto. Qed.

(** The synchronous branch leaves the worker queue alone, unless it hands
    [eval] an expression that is not a bare name. *)
Lemma offload_sync_queue (env : Env) (taskname : pyval) (args : call_args)
    (force_async force_sync : bool) (w : World) :
  (forall path app mod_ func_,
     taskname = VStr path -> split_on "." path = [app; mod_; func_] -> is_name func_ = true) ->
  queue (offload_sync env taskname args force_async force_sync w).2 = queue w.
Proof.
  intros Hnames. unfold offload_sync.
  destruct (callable taskname); [apply py_call_queue |].
  destruct taskname; try reflexivity.
  destruct (split_on "." s) as [| app [| mod_ [| func_ [| extra rest]]]] eqn:Hsplit;
    try apply raise_warning_queue.
  pose proof (Hnames s app mod_ func_ eq_refl Hsplit) as Hname.
  destruct (import_module env (app +:+ "." +:+ mod_)) as [_mod | e].
  - destruct (truthy (default VNone (_mod !! func_))) eqn:Htruthy; simpl.
    + unfold_monad. simpl. apply py_call_queue.
    + unfold mbind, M_bind, try_except at 1.
      rewrite py_eval_name by exact Hname.
      destruct (scope_lookup env _ func_) as [v |]; simpl.
      * apply py_call_queue.
      * unfold mbind, M_bind.
        pose proof (raise_warning_run env
          ("WARNING: '" +:+ s +:+ "' not started - No function named '" +:+ func_ +:+ "'") w)
          as (H1 & _ & _ & H4).
        destruct (raise_warning env _ w) as [[[] | e'] w'];
          simpl in *; try discriminate. exact H4.
  - destruct (is_ModuleNotFoundError e); [apply raise_warning_queue | reflexivity].
Qed.

(** The asynchronous branch never invokes anything inline. *)
Lemma offload_async_invocations (env : Env) (taskname : pyval) (args : call_args) (w : World) :
  invocations (offload_async env taskname args w).2 = invocations w.
Proof.
  unfold offload_async, AsyncTask_run, try_except.
  destruct (offload_imports env) as [| | e0 [|]]; unfold raise, modify; simpl;
    try (destruct (async_run env taskname args) as [e |]; simpl;
         [destruct (is_ImportError e); [apply raise_warning_invocations | reflexivity]
         | reflexivity]).
  reflexivity.
Qed.

Lemma offload_async_enqueues (env : Env) (taskname : pyval) (args : call_args) (w : World) :
  offload_imports env = ImportsOk ->
  async_run env taskname args = None ->
  offload_async env taskname args w = (Ret tt, with_queue (fun q => q ++ [(taskname, args)]) w).
Proof.
  intros Himp Hrun. unfold offload_async, AsyncTask_run, try_except.
  rewrite Himp, Hrun. reflexivity.
Qed.

Lemma offload_sync_resolved (env : Env) (path app mod_ func_ name : string)
    (_mod : gmap string pyval) (args : call_args) (force_async force_sync : bool) (w : World) :
  split_on "." path = [app; mod_; func_] ->
  import_module env (app +:+ "." +:+ mod_) = Ret _mod ->
  _mod !! func_ = Some (VFunc name) ->
  offload_sync env (VStr path) args force_async force_sync w = py_call env (VFunc name) args w.
Proof.
  intros Hsplit Himp Hattr. unfold offload_sync. simpl.
  rewrite Hsplit, Himp, Hattr. simpl. reflexivity.
Qed.

(** C5, as amended. Once the imports at the top of [offload_task] have
    succeeded: the asynchronous branch is taken if and only if [force_async]
    is set, or a worker is running and [force_sync] is not set. On that
    branch nothing is invoked inline, and when the enqueue succeeds the task
    and its arguments are appended to the worker queue and the call returns.
    In every other case the synchronous branch is taken. There the queue is
    left alone (as long as [eval] is not handed an expression other than a
    bare name), and the task is invoked inline exactly once with the supplied
    arguments when it is a callable, a dotted path whose module exports a
    callable of that name, or a dotted path whose last component the module
    lacks and [eval] finds bound to a callable in the dispatcher's scope. *)
Theorem offload_task_path (env : Env) (taskname : pyval) (args : call_args)
    (force_async force_sync : bool) (w : World) :
  offload_imports env = ImportsOk ->
  let r := offload_task env taskname args force_async force_sync w in
  (goes_async env force_async force_sync ->
     r = offload_async env taskname args w /\
     invocations r.2 = invocations w /\
     (async_run env taskname args = None ->
        r.1 = Ret tt /\ queue r.2 = queue w ++ [(taskname, args)])) /\
  (~ goes_async env force_async force_sync ->
     r = offload_sync env taskname args force_async force_sync w /\
     ((forall path app mod_ func_,
         taskname = VStr path -> split_on "." path = [app; mod_; func_] ->
         is_name func_ = true) ->
      queue r.2 = queue w) /\
     (forall name, taskname = VFunc name ->
        invocations r.2 = invocations w ++ [(name, args)]) /\
     (forall path app mod_ func_ _mod name,
        taskname = VStr path ->
        split_on "." path = [app; mod_; func_] ->
        import_module env (app +:+ "." +:+ mod_) = Ret _mod ->
        _mod !! func_ = Some (VFunc name) ->
        invocations r.2 = invocations w ++ [(name, args)]) /\
     (forall path app mod_ func_ _mod name,
        taskname = VStr path ->
        split_on "." path = [app; mod_; func_] ->
        import_module env (app +:+ "." +:+ mod_) = Ret _mod ->
        truthy (default VNone (_mod !! func_)) = false ->
        is_name func_ = true ->
        scope_lookup env
          (offload_locals taskname force_async force_sync app mod_ func_
                          (app +:+ "." +:+ mod_) (default VNone (_mod !! func_))) func_
          = Some (VFunc name) ->
        invocations r.2 = invocations w ++ [(name, args)])).
Proof.
  intros Himp r. subst r.
  rewrite offload_task_branches by exact Himp.
  split; intros Hpath.
  - apply goes_async_decide in Hpath. rewrite Hpath.
    split; [reflexivity |]. split; [apply offload_async_invocations |].
    intros Hrun. rewrite offload_async_enqueues by assumption. simpl. auto.
  - rewrite goes_async_decide in Hpath. apply not_true_is_false in Hpath. rewrite Hpath.
    split; [reflexivity |]. split; [apply offload_sync_queue |]. split; [| split].
    + intros name ->. unfold offload_sync. simpl. apply py_call_function.
    + intros path app mod_ func_ _mod name -> Hsplit Hmod Hattr.
      rewrite (offload_sync_resolved env path app mod_ func_ name _mod) by assumption.
      apply py_call_function.
    + intros path app mod_ func_ _mod name -> Hsplit Hmod Hfalsy Hname Hscope.
      rewrite (offload_sync_eval_resolved env path app mod_ func_ _mod (VFunc name))
        by assumption.
      apply py_call_function.
Qed.

Lemma offload_task_path_witness :
  let env := sample_env in
  let taskname := VFunc "django.core.mail.send_mail" in
  let args := CallArgs [VStr "subject"; VStr "body"] [("fail_silently", VBool false)] in
  let w := empty_world in
  let r := offload_task env taskname args true false w in
  (goes_async env true false ->
     r = offload_async env taskname args w /\
     invocations r.2 = invocations w /\
     (async_run env taskname args = None ->
        r.1 = Ret tt /\ queue r.2 = queue w ++ [(taskname, args)])) /\
  (~ goes_async env true false ->
     r = offload_sync env taskname args true false w /\
     ((forall path app mod_ func_,
         taskname = VStr path -> split_on "." path = [app; mod_; func_] ->
         is_name func_ = true) ->
      queue r.2 = queue w) /\
     (forall name, taskname = VFunc name ->
        invocations r.2 = invocations w ++ [(name, args)]) /\
     (forall path app mod_ func_ _mod name,
        taskname = VStr path ->
        split_on "." path = [app; mod_; func_] ->
        import_module env (app +:+ "." +:+ mod_) = Ret _mod ->
        _mod !! func_ = Some (VFunc name) ->
        invocations r.2 = invocations w ++ [(name, args)]) /\
     (forall path app mod_ func_ _mod name,
        taskname = VStr path ->
        split_on "." path = [app; mod_; func_] ->
        import_module env (app +:+ "." +:+ mod_) = Ret _mod ->
        truthy (default VNone (_mod !! func_)) = false ->
        is_name func_ = true ->
        scope_lookup env
          (offload_locals taskname true false app mod_ func_
                          (app +:+ "." +:+ mod_) (default VNone (_mod !! func_))) func_
          = Some (VFunc name) ->
        invocations r.2 = invocations w ++ [(name, args)])).
Proof.
  apply (offload_task_path sample_env). reflexivity.
Defined.

(** The two branches, evaluated on the mail task of [send_email]. *)
Example offload_task_force_async :
  let args := CallArgs [VStr "subject"; VStr "body"] [("fail_silently", VBool false)] in
  let r := offload_task sample_env (VFunc "django.core.mail.send_mail") args true false
             empty_world in
  r.1 = Ret tt /\ invocations r.2 = [] /\
  queue r.2 = [(VFunc "django.core.mail.send_mail", args)].
Proof. vm_compute. auto. Qed.

Example offload_task_no_worker :
  let args := CallArgs [VStr "subject"; VStr "body"] [("fail_silently", VBool false)] in
  let r := offload_task sample_env (VFunc "django.core.mail.send_mail") args false false
             empty_world in
  r.1 = Ret tt /\ queue r.2 = [] /\
  invocations r.2 = [("django.core.mail.send_mail", args)].
Proof. vm_compute. auto. Qed.

(** C5, the claim as stated, fails in two places. With no worker running
    and [force_sync] set the synchronous branch is taken, but the task
    ["a.b"] does not split into three components: the call logs a warning
    and returns, and nothing is invoked. And while the application registry
    is not ready, [force_async] does not lead to the asynchronous branch: the
    call logs a warning and returns, and nothing is queued. *)
Lemma offload_task_sync_without_invocation :
  let args := CallArgs [VInt 7] [] in
  let r := offload_task sample_env (VStr "a.b") args false true empty_world in
  let r' := offload_task registry_not_ready_env (VFunc "django.core.mail.send_mail") args
              true false empty_world in
  (~ goes_async sample_env false true /\
   r = offload_sync sample_env (VStr "a.b") args false true empty_world /\
   r.1 = Ret tt /\
   invocations r.2 = [] /\
   ~ (exists name, invocations r.2 = invocations empty_world ++ [(name, args)])) /\
  (goes_async registry_not_ready_env true false /\
   r'.1 = Ret tt /\
   queue r'.2 = [] /\
   invocations r'.2 = []).
Proof.
  split.
  - split; [intros [H | [H _]]; discriminate |].
    split; [reflexivity |]. split; [reflexivity |]. split; [reflexivity |].
    intros [name H]. vm_compute in H. discriminate.
  - split; [left; reflexivity |]. split; [reflexivity |]. split; reflexivity.
Qed.

(** ** The task registry *)

Lemma elem_of_TYPE (v : pyval) :
  v ∈ TYPE <->
  v = MINUTES \/ v = HOURLY \/ v = DAILY \/ v = WEEKLY \/ v = MONTHLY
  \/ v = QUARTERLY \/ v = YEARLY.
Proof.
  unfold TYPE. rewrite !elem_of_cons, elem_of_nil. tauto.
Qed.

Lemma register_run (self : TaskRegister) (task schedule minutes_ : pyval) (w : World) :
  let r := register self task schedule minutes_ w in
  r.1 = Ret tt /\
  read_list r.2 (task_list_addr self)
  = read_list w (task_list_addr self) ++ [MkScheduledTask task schedule minutes_] /\
  forall addr, addr <> task_list_addr self -> read_list r.2 addr = read_list w addr.
Proof.
  unfold register, list_append, modify, read_list. simpl.
  split; [reflexivity |]. split.
  - rewrite lookup_insert_eq. reflexivity.
  - intros addr Hne. rewrite lookup_insert_ne by congruence. reflexivity.
Qed.

(** C8, as amended. The checks are made by the decorator [scheduled_task],
    not by [TaskRegister.register]. Through the decorator, an object that is
    not callable, or an interval that is not one of the seven values of
    [TYPE], raises [ValueError] to the caller and registers nothing; a
    callable with a recognised interval is appended to the list of the
    register in use and handed back. [register] itself checks nothing: it
    always returns and appends. *)
Theorem scheduled_task_validates (interval_ minutes_ : pyval)
    (tasklist : option TaskRegister) (admin_class task schedule : pyval)
    (self : TaskRegister) (w : World) :
  let r := scheduled_task interval_ minutes_ tasklist admin_class w in
  let addr := task_list_addr (default tasks tasklist) in
  (callable admin_class = false ->
     r = (Raise (ValueError "Wrapped object must be a function"), w)) /\
  (callable admin_class = true ->
   ~ (interval_ = MINUTES \/ interval_ = HOURLY \/ interval_ = DAILY \/ interval_ = WEEKLY
      \/ interval_ = MONTHLY \/ interval_ = QUARTERLY \/ interval_ = YEARLY) ->
     exists msg, r = (Raise (ValueError msg), w)) /\
  (callable admin_class = true ->
   (interval_ = MINUTES \/ interval_ = HOURLY \/ interval_ = DAILY \/ interval_ = WEEKLY
    \/ interval_ = MONTHLY \/ interval_ = QUARTERLY \/ interval_ = YEARLY) ->
     r.1 = Ret admin_class /\
     read_list r.2 addr = read_list w addr ++ [MkScheduledTask admin_class interval_ minutes_]) /\
  (let r' := register self task schedule minutes_ w in
   r'.1 = Ret tt /\
   read_list r'.2 (task_list_addr self)
   = read_list w (task_list_addr self) ++ [MkScheduledTask task schedule minutes_]).
Proof.
  intros r addr. subst r addr. unfold scheduled_task.
  split; [| split; [| split]].
  - intros Hc. rewrite Hc. reflexivity.
  - intros Hc Hnot. rewrite Hc. simpl. rewrite <- elem_of_TYPE in Hnot.
    rewrite bool_decide_eq_false_2 by exact Hnot. simpl. eauto.
  - intros Hc Hin. rewrite Hc. simpl. rewrite <- elem_of_TYPE in Hin.
    rewrite bool_decide_eq_true_2 by exact Hin. simpl.
    unfold_monad. unfold register, list_append, modify. simpl.
    split; [reflexivity |].
    unfold read_list at 1. simpl. rewrite lookup_insert_eq. reflexivity.
  - destruct (register_run self task schedule minutes_ w) as (Hret & Hlist & _). auto.
Qed.

(** C8, the claim as stated, fails for [TaskRegister.register]: a string
    (not callable) registered with an interval that is not one of the seven
    values raises nothing and is appended to the register. *)
Lemma register_checks_nothing :
  let r := register tasks (VStr "not a function") (VStr "fortnightly") VNone empty_world in
  callable (VStr "not a function") = false /\
  (VStr "fortnightly" ∉ TYPE) /\
  r.1 = Ret tt /\
  read_list r.2 TaskRegister_task_list
  = [MkScheduledTask (VStr "not a function") (VStr "fortnightly") VNone].
Proof.
  split; [reflexivity |]. split.
  - rewrite elem_of_TYPE. intros H. repeat destruct H as [H | H]; discriminate.
  - split; reflexivity.
Qed.

(** The same two arguments are refused by the decorator. *)
Example scheduled_task_refuses :
  (scheduled_task (VStr "fortnightly") VNone None (VStr "not a function") empty_world).1
  = Raise (ValueError "Wrapped object must be a function") /\
  (scheduled_task (VStr "fortnightly") VNone None (VFunc "f") empty_world).1
  = Raise (ValueError "Invalid interval. Must be one of ['I', 'H', 'D', 'W', 'M', 'Q', 'Y']").
Proof. split; reflexivity. Qed.

(** The register after the module has been imported. *)
Example registry_after_import :
  read_list (import_tasks_module empty_world).2 TaskRegister_task_list =
  [ MkScheduledTask (VFunc "InvenTree.tasks.heartbeat") MINUTES (VInt 5);
    MkScheduledTask (VFunc "InvenTree.tasks.delete_successful_tasks") DAILY VNone;
    MkScheduledTask (VFunc "InvenTree.tasks.delete_failed_tasks") DAILY VNone;
    MkScheduledTask (VFunc "InvenTree.tasks.delete_old_error_logs") DAILY VNone;
    MkScheduledTask (VFunc "InvenTree.tasks.delete_old_notifications") DAILY VNone;
    MkScheduledTask (VFunc "InvenTree.tasks.check_for_updates") DAILY VNone;
    MkScheduledTask (VFunc "InvenTree.tasks.update_exchange_rates") DAILY VNone;
    MkScheduledTask (VFunc "InvenTree.tasks.run_backup") DAILY VNone;
    MkScheduledTask (VFunc "InvenTree.tasks.check_for_migrations") DAILY VNone ].
Proof. vm_compute. reflexivity. Qed.

(** C10. [task_list] belongs to the class: for any two instances the class
    constructs (whatever their identity, the module-level [tasks] among
    them), [self.task_list] is the one list object of the class. A
    registration through either instance appends to that list and touches no
    other list, so the registrations of both are seen through both, in
    order; registering the same task twice leaves it in the list twice. *)
Theorem task_list_is_class_level (i j : nat) (task1 schedule1 minutes1 : pyval)
    (task2 schedule2 minutes2 : pyval) (w : World) :
  let a := TaskRegister_new i in
  let b := TaskRegister_new j in
  let w1 := (register a task1 schedule1 minutes1 w).2 in
  let w2 := (register b task2 schedule2 minutes2 w1).2 in
  let w2' := (register b task1 schedule1 minutes1 w1).2 in
  task_list_addr a = TaskRegister_task_list /\
  task_list_addr b = TaskRegister_task_list /\
  task_list_addr tasks = TaskRegister_task_list /\
  read_list w2 (task_list_addr a)
  = read_list w TaskRegister_task_list
    ++ [MkScheduledTask task1 schedule1 minutes1; MkScheduledTask task2 schedule2 minutes2] /\
  read_list w2 (task_list_addr b) = read_list w2 (task_list_addr a) /\
  read_list w2 (task_list_addr tasks) = read_list w2 (task_list_addr a) /\
  (forall addr, addr <> TaskRegister_task_list -> read_list w2 addr = read_list w addr) /\
  read_list w2' TaskRegister_task_list
  = read_list w TaskRegister_task_list
    ++ [MkScheduledTask task1 schedule1 minutes1; MkScheduledTask task1 schedule1 minutes1].
Proof.
  intros a b w1 w2 w2'.
  assert (Ha : task_list_addr a = TaskRegister_task_list) by reflexivity.
  assert (Hb : task_list_addr b = TaskRegister_task_list) by reflexivity.
  destruct (register_run a task1 schedule1 minutes1 w) as (_ & H1 & H1').
  destruct (register_run b task2 schedule2 minutes2 w1) as (_ & H2 & H2').
  destruct (register_run b task1 schedule1 minutes1 w1) as (_ & H3 & _).
  fold w1 in H1, H1'. fold w2 in H2, H2'. fold w2' in H3.
  rewrite Ha in H1, H1'. rewrite Hb in H2, H2', H3.
  assert (Hw2 : read_list w2 TaskRegister_task_list
                = read_list w TaskRegister_task_list
                  ++ [MkScheduledTask task1 schedule1 minutes1;
                      MkScheduledTask task2 schedule2 minutes2]).
  { rewrite H2, H1, <- app_assoc. reflexivity. }
  repeat split; try reflexivity.
  - exact Hw2.
  - intros addr Hne. rewrite H2', H1' by exact Hne. reflexivity.
  - rewrite H3, H1, <- app_assoc. reflexivity.
Qed.

(** ** The migration job *)

Lemma log_each_run (lv : level) (msgs : list string) (w : World) :
  log_each lv msgs w = (Ret tt, with_log (fun l => l ++ (pair lv <$> msgs)) w).
Proof.
  revert w. induction msgs as [| m msgs IH]; intros w; simpl.
  - unfold mret, M_ret, with_log. destruct w; simpl. rewrite app_nil_r. reflexivity.
  - unfold mbind, M_bind, logger, modify. rewrite IH.
    unfold with_log. simpl. rewrite <- app_assoc. reflexivity.
Qed.

(** The apply step on its own: lines 624-629. *)
Lemma apply_migrations_not_supported (env : Env) (msg : string) (w : World) :
  migrate_raises env = Some (NotSupportedError msg) ->
  apply_migrations env w =
    if bool_decide (DATABASE_ENGINE env = "django.db.backends.sqlite3")
    then (Ret tt, with_log (fun l => l ++ [(ERROR, "Error during migrations: " +:+ msg)]) w)
    else (Raise (NotSupportedError msg), w).
Proof.
  intros Hm. unfold apply_migrations, call_command_migrate, try_except. rewrite Hm.
  unfold raise. simpl.
  destruct (bool_decide (DATABASE_ENGINE env = "django.db.backends.sqlite3")); reflexivity.
Qed.

(** C9. When the job reaches the apply step (auto-update is enabled and the
    plan is not empty) and the [migrate] command raises [NotSupportedError]:
    the job returns normally, with the error in the log, if and only if the
    engine is [django.db.backends.sqlite3]; with any other engine the same
    error is raised to the caller (and the error line is not logged). *)
Theorem check_for_migrations_not_supported (env : Env) (worker : bool) (msg : string)
    (w : World) :
  AUTO_UPDATE env = true ->
  migration_plan env <> [] ->
  migrate_raises env = Some (NotSupportedError msg) ->
  let r := check_for_migrations env worker w in
  let line := (ERROR, "Error during migrations: " +:+ msg) in
  (r.1 = Ret tt <-> DATABASE_ENGINE env = "django.db.backends.sqlite3") /\
  (DATABASE_ENGINE env = "django.db.backends.sqlite3" ->
     r.1 = Ret tt /\ line ∈ log r.2) /\
  (DATABASE_ENGINE env <> "django.db.backends.sqlite3" ->
     r.1 = Raise (NotSupportedError msg) /\
     (line ∉ log w -> line ∉ log r.2)).
Proof.
  intros Hauto Hplan Hm r line.
  assert (Hboth :
    (DATABASE_ENGINE env = "django.db.backends.sqlite3" -> r.1 = Ret tt /\ line ∈ log r.2) /\
    (DATABASE_ENGINE env <> "django.db.backends.sqlite3" ->
       r.1 = Raise (NotSupportedError msg) /\ (line ∉ log w -> line ∉ log r.2))).
  { subst r. unfold check_for_migrations. rewrite Hauto.
    destruct (migration_plan env) as [| m plan] eqn:Hp; [congruence |].
    set (entries := log_each INFO (m :: plan)).
    assert (Hentries : forall w0, entries w0
              = (Ret tt, with_log (fun l => l ++ (pair INFO <$> m :: plan)) w0))
      by (intros w0; apply log_each_run).
    clearbody entries.
    unfold mbind, M_bind, logger, set_maintenance_mode, get_maintenance_mode,
      maintenance_mode_on, print, reload_plugins, modify, gets, mret, M_ret.
    cbv beta iota zeta delta [negb]. rewrite Hentries.
    destruct worker; cbv beta iota zeta;
      rewrite (apply_migrations_not_supported env msg) by exact Hm;
      (split; intros Heng;
       [ rewrite bool_decide_eq_true_2 by exact Heng
       | rewrite bool_decide_eq_false_2 by exact Heng ]);
      simpl; (split; [reflexivity |]); subst line.
    all: rewrite ?elem_of_app, ?elem_of_cons, ?elem_of_nil, ?list_elem_of_fmap.
    all: try tauto.
    all: intros Hnot Hin;
         repeat match type of Hin with
                | _ \/ _ => destruct Hin as [Hin | Hin]
                | ex _ => destruct Hin as (? & Hin & _)
                end;
         first [contradiction | discriminate]. }
  destruct Hboth as [Hsqlite Hother].
  split; [| split; assumption].
  split.
  - intros Hret.
    destruct (decide (DATABASE_ENGINE env = "django.db.backends.sqlite3")) as [He | He];
      [exact He |].
    destruct (Hother He) as [Hraise _]. rewrite Hraise in Hret. discriminate.
  - intros He. apply Hsqlite. exact He.
Qed.

Lemma check_for_migrations_not_supported_witness :
  let env := failing_migration_env "django.db.backends.postgresql"
               (NotSupportedError "cannot alter column") in
  let r := check_for_migrations env true empty_world in
  let line := (ERROR, "Error during migrations: " +:+ "cannot alter column") in
  (r.1 = Ret tt <-> DATABASE_ENGINE env = "django.db.backends.sqlite3") /\
  (DATABASE_ENGINE env = "django.db.backends.sqlite3" ->
     r.1 = Ret tt /\ line ∈ log r.2) /\
  (DATABASE_ENGINE env <> "django.db.backends.sqlite3" ->
     r.1 = Raise (NotSupportedError "cannot alter column") /\
     (line ∉ log empty_world -> line ∉ log r.2)).
Proof.
  apply (check_for_migrations_not_supported
           (failing_migration_env "django.db.backends.postgresql"
              (NotSupportedError "cannot alter column")) true "cannot alter column").
  - reflexivity.
  - discriminate.
  - reflexivity.
Defined.

(** The two engines, evaluated. *)
Example check_for_migrations_on_postgresql :
  let env := failing_migration_env "django.db.backends.postgresql"
               (NotSupportedError "cannot alter column") in
  let r := check_for_migrations env true empty_world in
  r.1 = Raise (NotSupportedError "cannot alter column") /\
  plugin_reloads r.2 = 0%nat.
Proof. vm_compute. auto. Qed.

Example check_for_migrations_on_sqlite :
  let env := failing_migration_env SQLITE_ENGINE (NotSupportedError "cannot alter column") in
  let r := check_for_migrations env true empty_world in
  r.1 = Ret tt /\
  plugin_reloads r.2 = 1%nat /\
  maintenance r.2 = false /\
  log r.2 =
    [ (INFO, "There are open migrations"); (INFO, "part.0042_auto");
      (INFO, "Going into maintenance"); (INFO, "Mainentance mode is on now");
      (INFO, "Current process is a worker - shutting down cluster");
      (INFO, "Starting migrations");
      (ERROR, "Error during migrations: cannot alter column");
      (INFO, "Ran migrations"); (INFO, "Checking InvenTree left maintenance mode") ].
Proof. vm_compute. auto. Qed.

(** Another error of the migration is raised whatever the engine. *)
Example check_for_migrations_other_error :
  let env := failing_migration_env SQLITE_ENGINE (OperationalError "database is locked") in
  (check_for_migrations env false empty_world).1
  = Raise (OperationalError "database is locked").
Proof. vm_compute. reflexivity. Qed.

(** ** The update check *)

Lemma greedy_some {R : Type} (cls : ascii -> bool) (k : string -> string -> option R)
    (s taken : string) (r : R) :
  greedy cls k taken s = Some r -> exists taken' rest, k taken' rest = Some r.
Proof.
  revert taken. induction s as [| a s IH]; intros taken; simpl.
  - eauto.
  - destruct (cls a); [| eauto].
    destruct (greedy cls k (taken +:+ String a EmptyString) s) as [r' |] eqn:Hg.
    + intros [= ->]. eapply IH. exact Hg.
    + eauto.
Qed.

(** A match binds every group of the pattern. *)
Lemma re_run_groups (items : list re_item) (at_start : bool) (s : string)
    (groups gs : list string) :
  re_run items at_start s groups = Some gs ->
  length gs = (length groups + count_groups items)%nat.
Proof.
  revert at_start s groups.
  induction items as [| item items IH]; intros at_start s groups; simpl.
  - intros [= ->]. unfold count_groups. simpl. lia.
  - unfold count_groups in *. destruct item; simpl.
    + destruct at_start; [apply IH | discriminate].
    + destruct (bool_decide (s = EmptyString) || bool_decide (s = newline));
        [apply IH | discriminate].
    + intros H. apply greedy_some in H as (taken & rest & H). eapply IH. exact H.
    + intros H. apply greedy_some in H as (taken & rest & H).
      destruct (bool_decide (taken = EmptyString)); [discriminate |].
      apply IH in H. rewrite length_app in H. simpl in H. lia.
    + destruct s as [| a s']; [discriminate |].
      destruct (bool_decide (a = c)); [apply IH | discriminate].
Qed.

Lemma re_match_version_groups (tag : string) (groups : list string) :
  re_match VERSION_PATTERN tag = Some groups -> length groups = 3%nat.
Proof. intros H. apply re_run_groups in H. exact H. Qed.

(** Lines 470-491 have two outcomes only: a tag that matches is stored and
    the success recorded; a tag that does not match raises [AttributeError]
    and leaves the world, the log included, as it was. The branch that logs
    "did not match expected pattern" is never taken. *)
Lemma store_latest_version_cases (env : Env) (tag : string) (w : World) :
  let r := store_latest_version env tag w in
  match re_match VERSION_PATTERN tag with
  | Some groups =>
      r.1 = Ret tt /\
      log r.2 = log w ++ [(INFO, "Latest InvenTree version: '" +:+ tag +:+ "'")] /\
      settings r.2 =
        <[success_key "check_for_updates" := isoformat (clock env (clock_reads w))]>
          (<["_INVENTREE_LATEST_VERSION" := tag]> (settings w))
  | None =>
      r = (Raise (AttributeError "'NoneType' object has no attribute 'groups'"), w)
  end.
Proof.
  unfold store_latest_version.
  destruct (re_match VERSION_PATTERN tag) as [groups |] eqn:Hm; [| reflexivity].
  apply re_match_version_groups in Hm.
  rewrite length_map, Hm. simpl.
  unfold record_task_success, InvenTreeSetting_set_setting, datetime_now.
  unfold_monad. simpl. auto.
Qed.

(** C1. The tag ["v1.2.3-final"] matches the pattern with groups 1, 2, 3:
    the parsed version is [1; 2; 3], the tag is stored as the latest version
    and the success is recorded. The tag ["release-one"] does not match:
    [re.match] returns [None] and the call of [groups] on it raises
    [AttributeError]. Nothing is stored and no success is recorded, but
    nothing is logged either, and the exception leaves the job. *)
Theorem check_for_updates_version_tags :
  (re_match VERSION_PATTERN "v1.2.3-final" = Some ["1"; "2"; "3"] /\
   map int_of_str ["1"; "2"; "3"] = [1; 2; 3]) /\
  (forall env w,
     let r := store_latest_version env "v1.2.3-final" w in
     r.1 = Ret tt /\
     settings r.2 !! "_INVENTREE_LATEST_VERSION" = Some "v1.2.3-final" /\
     settings r.2 !! success_key "check_for_updates"
     = Some (isoformat (clock env (clock_reads w)))) /\
  re_match VERSION_PATTERN "release-one" = None /\
  (forall env w,
     store_latest_version env "release-one" w
     = (Raise (AttributeError "'NoneType' object has no attribute 'groups'"), w)).
Proof.
  split; [split; reflexivity |].
  split; [| split; [reflexivity |]].
  - intros env w r.
    pose proof (store_latest_version_cases env "v1.2.3-final" w) as H.
    change (re_match VERSION_PATTERN "v1.2.3-final") with (Some ["1"; "2"; "3"]) in H.
    destruct H as (Hret & _ & Hset). fold r in Hret, Hset.
    split; [exact Hret |]. rewrite Hset. split.
    + rewrite lookup_insert_ne by discriminate. apply lookup_insert_eq.
    + apply lookup_insert_eq.
  - intros env w. apply (store_latest_version_cases env "release-one" w).
Qed.

(** The leading [.*] is greedy: it leaves the first group its last digit only. *)
Example re_match_two_digit_major :
  re_match VERSION_PATTERN "v10.20.30" = Some ["0"; "20"; "30"].
Proof. reflexivity. Qed.

(** The whole job on the two tags, from an empty settings store. With
    ["release-one"] the only trace is the attempt the hold-off tracker
    recorded before the request. *)
Example check_for_updates_final :
  let r := check_for_updates (env_with_tag "v1.2.3-final") empty_world in
  r.1 = Ret tt /\
  settings r.2 = {[ "_check_for_updates_ATTEMPT" := "2023-11-14T22:13:20";
                    "_INVENTREE_LATEST_VERSION" := "v1.2.3-final";
                    "_check_for_updates_SUCCESS" := "2023-11-14T22:13:21" ]}.
Proof. vm_compute. auto. Qed.

Example check_for_updates_release_one :
  let r := check_for_updates (env_with_tag "release-one") empty_world in
  r.1 = Raise (AttributeError "'NoneType' object has no attribute 'groups'") /\
  settings r.2 = {[ "_check_for_updates_ATTEMPT" := "2023-11-14T22:13:20" ]} /\
  log r.2 = [ (INFO, "Logging task attempt for 'check_for_updates'");
              (INFO, "Checking for InvenTree software updates") ].
Proof. vm_compute. auto. Qed.
